(** * creational/abstract_factory.py: shoes creators and shoes products

    A shallow embedding of the module [creational/abstract_factory.py] and
    the properties of its two class hierarchies.

    The module is object-oriented Python: classes are created when their
    [class] statement runs, instances live on a heap, a method call is
    resolved through the method resolution order of the receiver's class,
    and [print] appends to standard output.  The embedding keeps these
    four ingredients explicit:

    - a table of class objects, each with its [__mro__], its namespace and
      the [__abstractmethods__] that [abc.ABCMeta] computes for it;
    - a heap of instances, each with its class and its [__dict__];
    - the module globals, binding names to class objects;
    - the text written to standard output so far.

    Every Python function of the module is a Rocq function in a state and
    exception monad over that state. *)

From stdpp Require Import gmap strings list.

Open Scope string_scope.

(** ** Values, exceptions and the interpreter state *)

(** Instances are identified by their location on the heap, classes by
    their position in the class table. *)
Abbreviation loc := positive (only parsing).
Abbreviation class_id := nat (only parsing).

(** The values that flow through the module: [None], strings and
    references to instances. *)
Inductive value :=
| VNone
| VStr (s : string)
| VObj (l : loc).

(** The exceptions of the embedding.  [TypeError_abstract] is the
    [TypeError] of [object.__new__] for a class whose
    [__abstractmethods__] is not empty; it carries the class name and the
    offending names instead of the message text. *)
Inductive exn :=
| AttributeError (owner attr : string)
| TypeError_abstract (cls : string) (names : gset string)
| RecursionError.

(** The function bodies of the source, used as code pointers by the
    function objects stored in class namespaces. *)
Inductive code :=
| code_ShoesCreator_factory_method
| code_ShoesCreator_some_operation
| code_SneakersCreator_factory_method
| code_CrocksCreator_factory_method
| code_Shoes_operation
| code_Sneakers_operation
| code_Crocks_operation.

(** A function object: its body and the [__isabstractmethod__] flag that
    the [@abstractmethod] decorator sets. *)
Record function := {
  f_code : code;
  f_isabstract : bool
}.

Definition def (c : code) : function :=
  {| f_code := c; f_isabstract := false |}.

Definition abstractmethod (f : function) : function :=
  {| f_code := f_code f; f_isabstract := true |}.

(** A class object.  Every class of the module has exactly one base, so
    [c_base] is a single class; it is [None] for [object] only.  [c_abc]
    tells whether the metaclass is [abc.ABCMeta], which a class inherits
    from its base. *)
Record pyclass := {
  c_name : string;
  c_base : option class_id;
  c_mro : list class_id;
  c_abc : bool;
  c_dict : gmap string function;
  c_abstractmethods : gset string
}.

(** An instance: its class and its attribute dictionary. *)
Record object := {
  o_class : class_id;
  o_dict : gmap string value
}.

Record state := {
  classes : list pyclass;
  globals : gmap string class_id;
  heap : gmap loc object;
  stdout : string
}.

(** ** The monad of the interpreter

    A computation takes the state and gives an outcome with the new state.
    The state is kept when an exception is raised: what was printed
    before stays printed.  [Unmodelled] marks the Python behaviours that
    the embedding does not cover (they are listed where they arise); no
    statement below is proved by running into it. *)

Inductive outcome (A : Type) :=
| Val (a : A)
| Exc (e : exn)
| Unmodelled.
Arguments Val {A} a.
Arguments Exc {A} e.
Arguments Unmodelled {A}.

Definition M (A : Type) : Type := state -> outcome A * state.

Definition ret {A} (a : A) : M A := fun st => (Val a, st).

Definition raise {A} (e : exn) : M A := fun st => (Exc e, st).

Definition unmodelled {A} : M A := fun st => (Unmodelled, st).

Definition bind {A B} (m : M A) (k : A -> M B) : M B :=
  fun st =>
    match m st with
    | (Val a, st') => k a st'
    | (Exc e, st') => (Exc e, st')
    | (Unmodelled, st') => (Unmodelled, st')
    end.

Declare Scope py_scope.
Delimit Scope py_scope with py.
Notation "'let*' x ':=' m 'in' k" := (bind m (fun x => k))
  (at level 10, x name, m at level 100, k at level 200) : py_scope.
Notation "m ';;' k" := (bind m (fun _ => k))
  (at level 100, k at level 200, right associativity) : py_scope.
Open Scope py_scope.

Definition get_state : M state := fun st => (Val st, st).

Definition put_state (st : state) : M unit := fun _ => (Val tt, st).

(** ** Names and classes *)

(** The one builtin name the module relies on that denotes a class. *)
Definition builtins (name : string) : option class_id :=
  if decide (name = "object") then Some 0 else None.

(** Reading a global name that denotes a class: the module globals first,
    then the builtins.  The other builtins of the interpreter are not
    listed, so any other name is not covered. *)
Definition lookup_global (name : string) : M class_id :=
  let* st := get_state in
  match globals st !! name with
  | Some c => ret c
  | None =>
      match builtins name with
      | Some c => ret c
      | None => unmodelled
      end
  end.

Definition bind_global (name : string) (c : class_id) : M unit :=
  let* st := get_state in
  put_state {| classes := classes st;
               globals := <[name := c]> (globals st);
               heap := heap st;
               stdout := stdout st |}.

(** A class identifier always comes from the table it is used with, so a
    missing entry is outside the embedding. *)
Definition get_class (c : class_id) : M pyclass :=
  let* st := get_state in
  match classes st !! c with
  | Some cls => ret cls
  | None => unmodelled
  end.

(** Attribute lookup on a class: the first namespace along the given
    method resolution order that has the name. *)
Fixpoint mro_lookup (cs : list pyclass) (mro : list class_id)
    (name : string) : option function :=
  match mro with
  | [] => None
  | c :: mro' =>
      match cs !! c with
      | Some cls =>
          match c_dict cls !! name with
          | Some f => Some f
          | None => mro_lookup cs mro' name
          end
      | None => mro_lookup cs mro' name
      end
  end.

Definition class_getattr (cs : list pyclass) (c : class_id)
    (name : string) : option function :=
  match cs !! c with
  | Some cls => mro_lookup cs (c_mro cls) name
  | None => None
  end.

(** [abc.ABCMeta.__new__]: the abstract names of a new class are the names
    of its own namespace whose value is abstract, and the abstract names of
    its base that still resolve, on the new class, to an abstract value. *)
Definition is_abstract_in (ns : gmap string function) (cs : list pyclass)
    (base_mro : list class_id) (name : string) : bool :=
  match ns !! name with
  | Some f => f_isabstract f
  | None =>
      match mro_lookup cs base_mro name with
      | Some f => f_isabstract f
      | None => false
      end
  end.

Definition compute_abstractmethods (ns : gmap string function)
    (cs : list pyclass) (base : pyclass) : gset string :=
  dom (filter (fun kv => f_isabstract kv.2 = true) ns)
  ∪ filter (fun name => is_abstract_in ns cs (c_mro base) name = true)
      (c_abstractmethods base).

(** The class object that [class name(base): ...] creates, [cs] being the
    classes that exist so far: its [__mro__] is the new class followed by
    the base's, and its abstract names are computed when the metaclass is
    [ABCMeta]. *)
Definition new_class (name : string) (b : class_id) (base : pyclass)
    (ns : gmap string function) (cs : list pyclass) : pyclass :=
  {| c_name := name;
     c_base := Some b;
     c_mro := length cs :: c_mro base;
     c_abc := c_abc base;
     c_dict := ns;
     c_abstractmethods :=
       if c_abc base then compute_abstractmethods ns cs base else ∅ |}.

(** Names that start with an underscore are special: in a class body
    they are mangled or read by [type.__new__], and [object] and [abc.ABC]
    have attributes of their own under such names.  Only the other names
    are covered. *)
Definition plain_name (name : string) : Prop :=
  String.prefix "_" name = false.

(** The statement [class name(base_name): ...] whose body defines the
    functions [ns].  The base expression is evaluated, the class object is
    created and the name is bound in the globals.  Nothing here raises
    for an abstract name that is left unimplemented. *)
Definition class_stmt (name base_name : string)
    (ns : gmap string function) : M unit :=
  let* b := lookup_global base_name in
  let* base := get_class b in
  if decide (map_Forall (fun k _ => plain_name k) ns)
  then
    let* st := get_state in
    let c := length (classes st) in
    put_state {| classes := classes st ++ [new_class name b base ns (classes st)];
                 globals := globals st;
                 heap := heap st;
                 stdout := stdout st |};;
    bind_global name c
  else unmodelled.

(** ** Instances *)

(** A new instance is stored at a location the heap does not use yet. *)
Definition alloc (o : object) : M loc :=
  let* st := get_state in
  let l := fresh (dom (heap st)) in
  put_state {| classes := classes st;
               globals := globals st;
               heap := <[l := o]> (heap st);
               stdout := stdout st |};;
  ret l.

(** Calling a class.  No class of the module defines [__new__] or
    [__init__], so the call is [object.__new__] followed by
    [object.__init__]: [TypeError] when the class has abstract names left,
    otherwise a new instance with an empty [__dict__].  A class that
    defines its own [__new__] or [__init__] is not covered. *)
Definition py_new (c : class_id) : M value :=
  let* cls := get_class c in
  let* st := get_state in
  match class_getattr (classes st) c "__new__" with
  | Some _ => unmodelled
  | None =>
      if decide (c_abstractmethods cls = ∅)
      then
        match class_getattr (classes st) c "__init__" with
        | Some _ => unmodelled
        | None =>
            let* l := alloc {| o_class := c; o_dict := ∅ |} in
            ret (VObj l)
        end
      else raise (TypeError_abstract (c_name cls) (c_abstractmethods cls))
  end.

(** The expression [C()] for a class bound to the global name [cname]. *)
Definition construct (cname : string) : M value :=
  let* c := lookup_global cname in
  py_new c.

(** [str(v)], which is also how an f-string renders [{v}] for these
    values.  The text of an instance without [__str__] embeds its memory
    address and is not covered. *)
Definition py_str (v : value) : M string :=
  match v with
  | VStr s => ret s
  | VNone => ret "None"
  | VObj _ => unmodelled
  end.

(** [print] applied to [objs]: the texts separated by a space, then a line break,
    appended to standard output. *)
Definition line_break : string := String (Ascii.ascii_of_nat 10) "".

Fixpoint join (sep : string) (l : list string) : string :=
  match l with
  | [] => ""
  | [s] => s
  | s :: l' => s +:+ sep +:+ join sep l'
  end.

Definition write (s : string) : M unit :=
  let* st := get_state in
  put_state {| classes := classes st;
               globals := globals st;
               heap := heap st;
               stdout := stdout st +:+ s |}.

Fixpoint strs (objs : list value) : M (list string) :=
  match objs with
  | [] => ret []
  | v :: objs' =>
      let* s := py_str v in
      let* l := strs objs' in
      ret (s :: l)
  end.

Definition print (objs : list value) : M value :=
  let* l := strs objs in
  write (join " " l +:+ line_break);;
  ret VNone.

(** ** The functions of the module

    A method call on an instance looks the name up on the class of the
    receiver, along its [__mro__], and runs the function found with the
    receiver as [self].  The bodies call methods themselves, so they take
    the dispatcher [call] as an argument; [call_method] closes the loop.
    Its first argument bounds the depth of nested calls, as the
    interpreter's recursion limit does. *)

Definition dispatch : Type := value -> string -> M value.

Module ShoesCreator.

(** [@abstractmethod def factory_method(self): pass] *)
Definition factory_method (call : dispatch) (self : value) : M value :=
  ret VNone.

(** [def some_operation(self) -> str] *)
Definition some_operation (call : dispatch) (self : value) : M value :=
  let* shoes := call self "factory_method" in
  let* r := call shoes "operation" in
  let* s := py_str r in
  let result := "ShoesCreator works with: " +:+ s in
  ret (VStr result).

End ShoesCreator.

Module SneakersCreator.

(** [def factory_method(self) -> Shoes: return Sneakers()] *)
Definition factory_method (call : dispatch) (self : value) : M value :=
  construct "Sneakers".

End SneakersCreator.

Module CrocksCreator.

(** [def factory_method(self) -> Shoes: return Crocks()] *)
Definition factory_method (call : dispatch) (self : value) : M value :=
  construct "Crocks".

End CrocksCreator.

Module Shoes.

(** [@abstractmethod def operation(self) -> str: pass] *)
Definition operation (call : dispatch) (self : value) : M value :=
  ret VNone.

End Shoes.

Module Sneakers.

(** [def operation(self) -> str: return "Sneakers shoes!"] *)
Definition operation (call : dispatch) (self : value) : M value :=
  ret (VStr "Sneakers shoes!").

End Sneakers.

Module Crocks.

(** [def operation(self) -> str: return "Crocks shoes!"] *)
Definition operation (call : dispatch) (self : value) : M value :=
  ret (VStr "Crocks shoes!").

End Crocks.

Definition run_code (c : code) : dispatch -> value -> M value :=
  match c with
  | code_ShoesCreator_factory_method => ShoesCreator.factory_method
  | code_ShoesCreator_some_operation => ShoesCreator.some_operation
  | code_SneakersCreator_factory_method => SneakersCreator.factory_method
  | code_CrocksCreator_factory_method => CrocksCreator.factory_method
  | code_Shoes_operation => Shoes.operation
  | code_Sneakers_operation => Sneakers.operation
  | code_Crocks_operation => Crocks.operation
  end.

(** [recv.name()].  An entry of the instance [__dict__] would shadow the
    function of the class; calling such an entry, or a method of [None] or
    of a string, is not covered.  A plain name that no class of the
    [__mro__] defines raises [AttributeError]. *)
Fixpoint call_method (depth : nat) (recv : value) (name : string)
    : M value :=
  match depth with
  | O => raise RecursionError
  | S depth' =>
      match recv with
      | VObj l =>
          let* st := get_state in
          match heap st !! l with
          | Some o =>
              match o_dict o !! name with
              | Some _ => unmodelled
              | None =>
                  let* cls := get_class (o_class o) in
                  match class_getattr (classes st) (o_class o) name with
                  | Some f => run_code (f_code f) (call_method depth') recv
                  | None =>
                      if decide (plain_name name)
                      then raise (AttributeError (c_name cls) name)
                      else unmodelled
                  end
              end
          | None => unmodelled
          end
      | _ => unmodelled
      end
  end.

(** [def client_side_method(creator: ShoesCreator) -> None] *)
Definition client_side_method (call : dispatch) (creator : value)
    : M value :=
  let* r := call creator "some_operation" in
  let* s := py_str r in
  print [VStr s].

(** ** The module body

    The state in which the module starts holds the two classes that exist
    before it: [object] and [abc.ABC], whose metaclass is [ABCMeta]. *)

Definition class_object : pyclass :=
  {| c_name := "object"; c_base := None; c_mro := [0]; c_abc := false;
     c_dict := ∅; c_abstractmethods := ∅ |}.

Definition class_ABC : pyclass :=
  {| c_name := "ABC"; c_base := Some 0; c_mro := [1; 0]; c_abc := true;
     c_dict := ∅; c_abstractmethods := ∅ |}.

Definition initial_state : state :=
  {| classes := [class_object; class_ABC];
     globals := ∅;
     heap := ∅;
     stdout := "" |}.

(** [from abc import ABC, abstractmethod] *)
Definition import_abc : M unit := bind_global "ABC" 1.

Definition class_definitions : M unit :=
  import_abc;;
  class_stmt "ShoesCreator" "ABC"
    {[ "factory_method" :=
         abstractmethod (def code_ShoesCreator_factory_method);
       "some_operation" := def code_ShoesCreator_some_operation ]};;
  class_stmt "SneakersCreator" "ShoesCreator"
    {[ "factory_method" := def code_SneakersCreator_factory_method ]};;
  class_stmt "CrocksCreator" "ShoesCreator"
    {[ "factory_method" := def code_CrocksCreator_factory_method ]};;
  class_stmt "Shoes" "ABC"
    {[ "operation" := abstractmethod (def code_Shoes_operation) ]};;
  class_stmt "Sneakers" "Shoes"
    {[ "operation" := def code_Sneakers_operation ]};;
  class_stmt "Crocks" "Shoes"
    {[ "operation" := def code_Crocks_operation ]}.

(** The block under [if __name__ == "__main__":]. *)
Definition main (call : dispatch) : M unit :=
  print [VStr "SneakersCreator:"];;
  (let* creator := construct "SneakersCreator" in
   client_side_method call creator);;
  print [];;
  print [VStr "CrocksCreator:"];;
  (let* creator := construct "CrocksCreator" in
   client_side_method call creator);;
  ret tt.

Definition module_body (depth : nat) (__name__ : string) : M unit :=
  class_definitions;;
  if decide (__name__ = "__main__") then main (call_method depth)
  else ret tt.

(** The recursion limit of a stock interpreter. *)
Definition recursion_limit : nat := 1000.

(** The state after [import abstract_factory]. *)
Definition imported : state :=
  (module_body recursion_limit "abstract_factory" initial_state).2.

(** The expression [C().name()] for a class bound to the global name
    [cname]. *)
Definition call_on_new (depth : nat) (cname name : string) : M value :=
  let* o := construct cname in
  call_method depth o name.

(** A state in which the module has been imported: its classes and its
    globals are those the module body leaves; the heap and the output are
    arbitrary. *)
Definition module_loaded (st : state) : Prop :=
  classes st = classes imported /\ globals st = globals imported.

(** State updates used to write down final states. *)
Definition with_heap (h : gmap loc object) (st : state) : state :=
  {| classes := classes st; globals := globals st;
     heap := h; stdout := stdout st |}.

Definition with_stdout (out : string) (st : state) : state :=
  {| classes := classes st; globals := globals st;
     heap := heap st; stdout := out |}.

(** The state after one instance of class [c] has been created. *)
Definition allocated (c : class_id) (st : state) : state :=
  with_heap (<[fresh (dom (heap st)) := {| o_class := c; o_dict := ∅ |}]>
               (heap st)) st.

(** The lines of a text, each ended by a line break. *)
Fixpoint lines_from (cur : string) (s : string) : list string :=
  match s with
  | EmptyString => if decide (cur = "") then [] else [cur]
  | String a s' =>
      if decide (a = Ascii.ascii_of_nat 10)
      then cur :: lines_from "" s'
      else lines_from (cur +:+ String a "") s'
  end.

Definition lines (s : string) : list string := lines_from "" s.

(** [issubclass] along the stored method resolution order. *)
Definition issubclass (cs : list pyclass) (c c' : class_id) : bool :=
  match cs !! c with
  | Some cls => bool_decide (c' ∈ c_mro cls)
  | None => false
  end.

(** The state after [class name(base): ...] has run in [st], [b] being
    the class that the base expression denotes. *)
Definition subclassed (name : string) (b : class_id) (base : pyclass)
    (ns : gmap string function) (st : state) : state :=
  {| classes := classes st ++ [new_class name b base ns (classes st)];
     globals := <[name := length (classes st)]> (globals st);
     heap := heap st;
     stdout := stdout st |}.

(** The two hierarchies of the module, with the abstract base and the
    abstract method of each. *)
Inductive hierarchy := creators | products.

Definition base_name (h : hierarchy) : string :=
  match h with
  | creators => "ShoesCreator"
  | products => "Shoes"
  end.

Definition required (h : hierarchy) : string :=
  match h with
  | creators => "factory_method"
  | products => "operation"
  end.

(** ** The two variants

    The module has two concrete creators, each with its product.  The
    tables below name them as the [class] statements do; what the code
    does with them is proved, not assumed. *)

Inductive variant := sneakers | crocks.

Definition creator_name (v : variant) : string :=
  match v with
  | sneakers => "SneakersCreator"
  | crocks => "CrocksCreator"
  end.

Definition product_name (v : variant) : string :=
  match v with
  | sneakers => "Sneakers"
  | crocks => "Crocks"
  end.

Definition product_text (v : variant) : string :=
  match v with
  | sneakers => "Sneakers shoes!"
  | crocks => "Crocks shoes!"
  end.

Definition creator_text (v : variant) : string :=
  "ShoesCreator works with: " +:+ product_text v.

(** [o] is an instance of the class bound to [cname] by the module. *)
Definition instance_of (cname : string) (o : object) : Prop :=
  globals imported !! cname = Some (o_class o).

Ltac table := vm_compute; reflexivity.

(** The output of the program, line by line. *)
Definition program_output : list string :=
  [ "SneakersCreator:";
    "ShoesCreator works with: Sneakers shoes!";
    "";
    "CrocksCreator:";
    "ShoesCreator works with: Crocks shoes!" ].

Definition nonblank (s : string) : bool := negb (bool_decide (s = "")).

(** The program run as the entry point. *)
Definition run_program (depth : nat) : outcome unit * state :=
  module_body depth "__main__" initial_state.

(** A state in which the module is available: its classes are still at
    the front of the class table and its names are still bound to them;
    further classes and names may have been added. *)
Definition module_available (st : state) : Prop :=
  (exists extra : list pyclass, classes st = app (classes imported) extra) /\
  globals imported ⊆ globals st.

(** What running the whole program prints. *)
Definition program_text : string :=
  join line_break program_output +:+ line_break.

(** The function that each concrete creator defines as its
    [factory_method]. *)
Definition factory_code (v : variant) : code :=
  match v with
  | sneakers => code_SneakersCreator_factory_method
  | crocks => code_CrocksCreator_factory_method
  end.

(** Reading the variant back from the text that [some_operation]
    returned. *)
Definition variant_of_text (s : string) : option variant :=
  if decide (s = "ShoesCreator works with: Sneakers shoes!")
  then Some sneakers
  else if decide (s = "ShoesCreator works with: Crocks shoes!")
       then Some crocks
       else None.

(** * Properties *)

(** ** The class table of the imported module *)

(** A method call on an instance whose [__dict__] does not shadow the
    name runs the function found on its class. *)
Lemma call_method_resolved (depth : nat) (st : state) (l : loc)
    (o : object) (cls : pyclass) (name : string) (f : function) :
  heap st !! l = Some o ->
  o_dict o !! name = None ->
  classes st !! o_class o = Some cls ->
  class_getattr (classes st) (o_class o) name = Some f ->
  call_method (S depth) (VObj l) name st
  = run_code (f_code f) (call_method depth) (VObj l) st.
Proof.
  intros Hl Hd Hc Hf. cbn [call_method]. unfold bind at 1, get_state.
  rewrite Hl, Hd. unfold bind at 1, get_class, bind, get_state.
  rewrite Hc. unfold ret. rewrite Hf. reflexivity.
Qed.

Section Loaded.

Variable st : state.
Hypothesis Hloaded : module_loaded st.

Lemma loaded_classes : classes st = classes imported.
Proof. exact (proj1 Hloaded). Qed.

Lemma loaded_globals : globals st = globals imported.
Proof. exact (proj2 Hloaded). Qed.

(** A name bound by the module resolves to its class and changes
    nothing. *)
Lemma lookup_global_loaded (name : string) (c : class_id) :
  globals imported !! name = Some c ->
  lookup_global name st = (Val c, st).
Proof.
  intros Hc. unfold lookup_global, bind, get_state.
  rewrite loaded_globals, Hc. reflexivity.
Qed.

Lemma get_class_loaded (c : class_id) (cls : pyclass) :
  classes imported !! c = Some cls ->
  get_class c st = (Val cls, st).
Proof.
  intros Hc. unfold get_class, bind, get_state.
  rewrite loaded_classes, Hc. reflexivity.
Qed.

(** Calling a class of the module that has no abstract name left
    allocates one instance. *)
Lemma py_new_loaded (c : class_id) (cls : pyclass) :
  classes imported !! c = Some cls ->
  c_abstractmethods cls = ∅ ->
  class_getattr (classes imported) c "__new__" = None ->
  class_getattr (classes imported) c "__init__" = None ->
  py_new c st = (Val (VObj (fresh (dom (heap st)))), allocated c st).
Proof.
  intros Hc Habs Hnew Hinit. unfold py_new, bind at 1.
  rewrite (get_class_loaded _ _ Hc). unfold bind at 1, get_state.
  rewrite loaded_classes, Hnew, Hinit.
  destruct (decide (c_abstractmethods cls = ∅)) as [_|Hne]; [|contradiction].
  reflexivity.
Qed.

(** Calling a class of the module that has abstract names left raises
    and changes nothing. *)
Lemma py_new_abstract (c : class_id) (cls : pyclass) :
  classes imported !! c = Some cls ->
  c_abstractmethods cls ≠ ∅ ->
  class_getattr (classes imported) c "__new__" = None ->
  py_new c st
  = (Exc (TypeError_abstract (c_name cls) (c_abstractmethods cls)), st).
Proof.
  intros Hc Habs Hnew. unfold py_new, bind at 1.
  rewrite (get_class_loaded _ _ Hc). unfold bind at 1, get_state.
  rewrite loaded_classes, Hnew.
  destruct (decide (c_abstractmethods cls = ∅)) as [He|_]; [contradiction|].
  reflexivity.
Qed.

Lemma call_method_loaded (depth : nat) (l : loc) (o : object)
    (cls : pyclass) (name : string) (f : function) :
  heap st !! l = Some o ->
  o_dict o !! name = None ->
  classes imported !! o_class o = Some cls ->
  class_getattr (classes imported) (o_class o) name = Some f ->
  call_method (S depth) (VObj l) name st
  = run_code (f_code f) (call_method depth) (VObj l) st.
Proof.
  rewrite <- loaded_classes. apply call_method_resolved.
Qed.

End Loaded.

Lemma imported_loaded : module_loaded imported.
Proof. split; reflexivity. Qed.

Lemma allocated_loaded (c : class_id) (st : state) :
  module_loaded st -> module_loaded (allocated c st).
Proof. intros [Hc Hg]. split; assumption. Qed.

Lemma allocated_lookup (c : class_id) (st : state) :
  heap (allocated c st) !! fresh (dom (heap st))
  = Some {| o_class := c; o_dict := ∅ |}.
Proof. unfold allocated, with_heap; simpl. apply lookup_insert_eq. Qed.

Lemma allocated_preserves (c : class_id) (st : state) (l : loc) (o : object) :
  heap st !! l = Some o -> heap (allocated c st) !! l = Some o.
Proof.
  intros Hl. unfold allocated, with_heap; simpl.
  rewrite lookup_insert_ne; [assumption|].
  intros <-. assert (Hin : fresh (dom (heap st)) ∈ dom (heap st)).
  { apply elem_of_dom. eauto. }
  exact (is_fresh _ Hin).
Qed.


Lemma bind_val {A B} (m : M A) (k : A -> M B) (st st' : state) (a : A) :
  m st = (Val a, st') -> bind m k st = k a st'.
Proof. intros H. unfold bind. rewrite H. reflexivity. Qed.

Lemma bind_exc {A B} (m : M A) (k : A -> M B) (st st' : state) (e : exn) :
  m st = (Exc e, st') -> bind m k st = (Exc e, st').
Proof. intros H. unfold bind. rewrite H. reflexivity. Qed.

Lemma creator_class (v : variant) :
  exists c cls,
    globals imported !! creator_name v = Some c /\
    classes imported !! c = Some cls /\
    c_name cls = creator_name v /\
    c_abstractmethods cls = ∅ /\
    class_getattr (classes imported) c "__new__" = None /\
    class_getattr (classes imported) c "__init__" = None /\
    class_getattr (classes imported) c "some_operation"
    = Some (def code_ShoesCreator_some_operation) /\
    class_getattr (classes imported) c "factory_method"
    = Some (def match v with
                | sneakers => code_SneakersCreator_factory_method
                | crocks => code_CrocksCreator_factory_method
                end).
Proof.
  destruct v.
  - exists 3, (default class_object (classes imported !! 3)).
    split_and!; table.
  - exists 4, (default class_object (classes imported !! 4)).
    split_and!; table.
Qed.

Lemma product_class (v : variant) :
  exists c cls,
    globals imported !! product_name v = Some c /\
    classes imported !! c = Some cls /\
    c_name cls = product_name v /\
    c_abstractmethods cls = ∅ /\
    class_getattr (classes imported) c "__new__" = None /\
    class_getattr (classes imported) c "__init__" = None /\
    class_getattr (classes imported) c "operation"
    = Some (def match v with
                | sneakers => code_Sneakers_operation
                | crocks => code_Crocks_operation
                end).
Proof.
  destruct v.
  - exists 6, (default class_object (classes imported !! 6)).
    split_and!; table.
  - exists 7, (default class_object (classes imported !! 7)).
    split_and!; table.
Qed.

(** [C()] for a concrete class of the module. *)
Lemma construct_creator (v : variant) (st : state) :
  module_loaded st ->
  exists c,
    globals imported !! creator_name v = Some c /\
    construct (creator_name v) st
    = (Val (VObj (fresh (dom (heap st)))), allocated c st).
Proof.
  intros Hst.
  destruct (creator_class v) as (c & cls & Hg & Hc & _ & Ha & Hn & Hi & _).
  exists c. split; [exact Hg|]. unfold construct.
  rewrite (bind_val _ _ _ _ _ (lookup_global_loaded st Hst _ _ Hg)).
  exact (py_new_loaded st Hst c cls Hc Ha Hn Hi).
Qed.

Lemma construct_product (v : variant) (st : state) :
  module_loaded st ->
  exists c,
    globals imported !! product_name v = Some c /\
    construct (product_name v) st
    = (Val (VObj (fresh (dom (heap st)))), allocated c st).
Proof.
  intros Hst.
  destruct (product_class v) as (c & cls & Hg & Hc & _ & Ha & Hn & Hi & _).
  exists c. split; [exact Hg|]. unfold construct.
  rewrite (bind_val _ _ _ _ _ (lookup_global_loaded st Hst _ _ Hg)).
  exact (py_new_loaded st Hst c cls Hc Ha Hn Hi).
Qed.

(** [p.operation()] on an instance of a concrete product. *)
Lemma call_operation (v : variant) (depth : nat) (st : state)
    (l : loc) (o : object) :
  module_loaded st ->
  heap st !! l = Some o ->
  instance_of (product_name v) o ->
  o_dict o !! "operation" = None ->
  call_method (S depth) (VObj l) "operation" st
  = (Val (VStr (product_text v)), st).
Proof.
  intros Hst Hl Ho Hd.
  destruct (product_class v) as (c & cls & Hg & Hc & _ & _ & _ & _ & Hop).
  unfold instance_of in Ho. rewrite Hg in Ho.
  injection Ho as ->.
  rewrite (call_method_loaded st Hst depth l o cls _ _ Hl Hd Hc Hop).
  destruct v; reflexivity.
Qed.

(** [c.factory_method()] on an instance of a concrete creator. *)
Lemma call_factory_method (v : variant) (depth : nat) (st : state)
    (l : loc) (o : object) :
  module_loaded st ->
  heap st !! l = Some o ->
  instance_of (creator_name v) o ->
  o_dict o !! "factory_method" = None ->
  exists c,
    globals imported !! product_name v = Some c /\
    call_method (S depth) (VObj l) "factory_method" st
    = (Val (VObj (fresh (dom (heap st)))), allocated c st).
Proof.
  intros Hst Hl Ho Hd.
  destruct (creator_class v)
    as (c & cls & Hg & Hc & _ & _ & _ & _ & _ & Hfm).
  unfold instance_of in Ho. rewrite Hg in Ho.
  injection Ho as ->.
  rewrite (call_method_loaded st Hst depth l o cls _ _ Hl Hd Hc Hfm).
  destruct (construct_product v st Hst) as (p & Hp & Hnew).
  exists p. split; [exact Hp|].
  destruct v; exact Hnew.
Qed.

(** [c.some_operation()] on an instance of a concrete creator: the text
    of the variant, and one product allocated. *)
Lemma call_some_operation (v : variant) (depth : nat) (st : state)
    (l : loc) (o : object) :
  module_loaded st ->
  heap st !! l = Some o ->
  instance_of (creator_name v) o ->
  o_dict o !! "some_operation" = None ->
  o_dict o !! "factory_method" = None ->
  exists c,
    globals imported !! product_name v = Some c /\
    call_method (S (S depth)) (VObj l) "some_operation" st
    = (Val (VStr (creator_text v)), allocated c st).
Proof.
  intros Hst Hl Ho Hso Hfm.
  destruct (call_factory_method v depth st l o Hst Hl Ho Hfm)
    as (p & Hp & Hcall).
  exists p. split; [exact Hp|].
  destruct (creator_class v)
    as (c & cls & Hg & Hc & _ & _ & _ & _ & Hop & _).
  pose proof Ho as Ho'. unfold instance_of in Ho'. rewrite Hg in Ho'.
  injection Ho' as ->.
  rewrite (call_method_loaded st Hst (S depth) l o cls _ _ Hl Hso Hc Hop).
  cbn [run_code f_code def]. unfold ShoesCreator.some_operation.
  rewrite (bind_val _ _ _ _ _ Hcall).
  rewrite (bind_val _ _ _ _ _
             (call_operation v depth (allocated p st) _ _
                (allocated_loaded p st Hst) (allocated_lookup p st)
                Hp (lookup_empty _))).
  reflexivity.
Qed.

(** [C().some_operation()] for a concrete creator [C]. *)
Lemma call_on_new_some_operation (v : variant) (depth : nat) (st : state) :
  module_loaded st ->
  exists st',
    call_on_new (S (S depth)) (creator_name v) "some_operation" st
    = (Val (VStr (creator_text v)), st') /\
    module_loaded st' /\ stdout st' = stdout st.
Proof.
  intros Hst. destruct (construct_creator v st Hst) as (c & Hc & Hnew).
  destruct (call_some_operation v depth (allocated c st) _ _
              (allocated_loaded c st Hst) (allocated_lookup c st)
              Hc (lookup_empty _) (lookup_empty _)) as (p & Hp & Hcall).
  exists (allocated p (allocated c st)).
  unfold call_on_new. rewrite (bind_val _ _ _ _ _ Hnew).
  split; [exact Hcall|]. split; [|reflexivity].
  apply allocated_loaded, allocated_loaded, Hst.
Qed.

(** ** Creators *)

(** C1.  On a freshly constructed concrete creator, [some_operation]
    returns the fixed text of the variant:
    [SneakersCreator().some_operation()] is
    "ShoesCreator works with: Sneakers shoes!" and
    [CrocksCreator().some_operation()] is
    "ShoesCreator works with: Crocks shoes!". *)
Theorem some_operation_on_new_creator (depth : nat) (st : state) :
  module_loaded st ->
  (exists st',
      call_on_new (S (S depth)) "SneakersCreator" "some_operation" st
      = (Val (VStr "ShoesCreator works with: Sneakers shoes!"), st')) /\
  (exists st',
      call_on_new (S (S depth)) "CrocksCreator" "some_operation" st
      = (Val (VStr "ShoesCreator works with: Crocks shoes!"), st')).
Proof.
  intros Hst. split.
  - destruct (call_on_new_some_operation sneakers depth st Hst)
      as (st' & H & _).
    exists st'. exact H.
  - destruct (call_on_new_some_operation crocks depth st Hst)
      as (st' & H & _).
    exists st'. exact H.
Qed.

Lemma some_operation_on_new_creator_witness :
  module_loaded imported /\
  (exists st',
      call_on_new 2 "SneakersCreator" "some_operation" imported
      = (Val (VStr "ShoesCreator works with: Sneakers shoes!"), st')) /\
  (exists st',
      call_on_new 2 "CrocksCreator" "some_operation" imported
      = (Val (VStr "ShoesCreator works with: Crocks shoes!"), st')).
Proof.
  split; [exact imported_loaded|].
  exact (some_operation_on_new_creator 0 imported imported_loaded).
Defined.



(** ** Products *)

(** C3.  [operation] of a concrete product takes nothing but [self],
    leaves the state as it is and returns the fixed text of its class,
    which is not empty: "Sneakers shoes!" for every instance of
    [Sneakers] and "Crocks shoes!" for every instance of [Crocks], on
    every call, and so for [Sneakers().operation()] and
    [Crocks().operation()], where the instance is the only thing
    created. *)
Theorem product_operation (depth : nat) (st : state) :
  module_loaded st ->
  (forall l o,
      heap st !! l = Some o -> o_dict o !! "operation" = None ->
      (instance_of "Sneakers" o ->
       call_method (S depth) (VObj l) "operation" st
       = (Val (VStr "Sneakers shoes!"), st)) /\
      (instance_of "Crocks" o ->
       call_method (S depth) (VObj l) "operation" st
       = (Val (VStr "Crocks shoes!"), st))) /\
  (exists c,
      globals imported !! "Sneakers" = Some c /\
      call_on_new (S depth) "Sneakers" "operation" st
      = (Val (VStr "Sneakers shoes!"), allocated c st)) /\
  (exists c,
      globals imported !! "Crocks" = Some c /\
      call_on_new (S depth) "Crocks" "operation" st
      = (Val (VStr "Crocks shoes!"), allocated c st)) /\
  "Sneakers shoes!" <> "" /\ "Crocks shoes!" <> "".
Proof.
  intros Hst. split_and!; try discriminate.
  - intros l o Hl Hd. split; intros Ho.
    + exact (call_operation sneakers depth st l o Hst Hl Ho Hd).
    + exact (call_operation crocks depth st l o Hst Hl Ho Hd).
  - destruct (construct_product sneakers st Hst) as (c & Hc & Hnew).
    exists c. split; [exact Hc|]. unfold call_on_new.
    rewrite (bind_val _ _ _ _ _ Hnew).
    exact (call_operation sneakers depth (allocated c st) _ _
             (allocated_loaded c st Hst) (allocated_lookup c st)
             Hc (lookup_empty _)).
  - destruct (construct_product crocks st Hst) as (c & Hc & Hnew).
    exists c. split; [exact Hc|]. unfold call_on_new.
    rewrite (bind_val _ _ _ _ _ Hnew).
    exact (call_operation crocks depth (allocated c st) _ _
             (allocated_loaded c st Hst) (allocated_lookup c st)
             Hc (lookup_empty _)).
Qed.

Lemma product_operation_witness :
  module_loaded (allocated 6 imported) /\
  call_method 1 (VObj 1%positive) "operation" (allocated 6 imported)
  = (Val (VStr "Sneakers shoes!"), allocated 6 imported).
Proof.
  split; [exact (allocated_loaded 6 imported imported_loaded)|].
  apply (proj1 (proj1 (product_operation 0 (allocated 6 imported)
                         (allocated_loaded 6 imported imported_loaded))
                  1%positive {| o_class := 6; o_dict := ∅ |}
                  ltac:(vm_compute; reflexivity)
                  ltac:(vm_compute; reflexivity))).
  vm_compute; reflexivity.
Defined.

(** ** Determinism, distinctness and frame *)

(** C4.  For each concrete creator [C], [C().factory_method()] returns an
    instance with the product capability (its class is a subclass of
    [Shoes] and has an [operation]), and two such calls, from any two
    states of the imported module, return instances of the same class
    whose [operation] returns the same text. *)
Theorem factory_method_deterministic (v : variant) (d1 d2 : nat)
    (st1 st2 : state) :
  module_loaded st1 -> module_loaded st2 ->
  exists (pc : class_id) (l1 l2 : loc) (st1' st2' : state),
    call_on_new (S d1) (creator_name v) "factory_method" st1
    = (Val (VObj l1), st1') /\
    call_on_new (S d2) (creator_name v) "factory_method" st2
    = (Val (VObj l2), st2') /\
    heap st1' !! l1 = Some {| o_class := pc; o_dict := ∅ |} /\
    heap st2' !! l2 = Some {| o_class := pc; o_dict := ∅ |} /\
    (exists shoes,
        globals imported !! "Shoes" = Some shoes /\
        issubclass (classes imported) pc shoes = true) /\
    is_Some (class_getattr (classes imported) pc "operation") /\
    exists s, forall d,
      call_method (S d) (VObj l1) "operation" st1' = (Val (VStr s), st1') /\
      call_method (S d) (VObj l2) "operation" st2' = (Val (VStr s), st2').
Proof.
  intros H1 H2.
  destruct (construct_creator v st1 H1) as (c & Hc & Hnew1).
  destruct (construct_creator v st2 H2) as (c' & Hc' & Hnew2).
  rewrite Hc in Hc'. injection Hc' as <-.
  pose proof (allocated_loaded c st1 H1) as H1'.
  pose proof (allocated_loaded c st2 H2) as H2'.
  destruct (call_factory_method v d1 (allocated c st1) _ _ H1'
              (allocated_lookup c st1) Hc (lookup_empty _))
    as (pc & Hpc & Hf1).
  destruct (call_factory_method v d2 (allocated c st2) _ _ H2'
              (allocated_lookup c st2) Hc (lookup_empty _))
    as (pc' & Hpc' & Hf2).
  rewrite Hpc in Hpc'. injection Hpc' as <-.
  exists pc, (fresh (dom (heap (allocated c st1)))),
    (fresh (dom (heap (allocated c st2)))),
    (allocated pc (allocated c st1)), (allocated pc (allocated c st2)).
  unfold call_on_new.
  rewrite (bind_val _ _ _ _ _ Hnew1), (bind_val _ _ _ _ _ Hnew2).
  split_and!; try assumption.
  - apply allocated_lookup.
  - apply allocated_lookup.
  - exists 5. destruct v; vm_compute in Hpc; injection Hpc as <-;
      split; table.
  - destruct v; vm_compute in Hpc; injection Hpc as <-;
      vm_compute; eauto.
  - exists (product_text v). intros d. split.
    + exact (call_operation v d _ _ _ (allocated_loaded pc _ H1')
               (allocated_lookup pc _) Hpc (lookup_empty _)).
    + exact (call_operation v d _ _ _ (allocated_loaded pc _ H2')
               (allocated_lookup pc _) Hpc (lookup_empty _)).
Qed.

Lemma factory_method_deterministic_witness :
  module_loaded imported /\ module_loaded (allocated 3 imported) /\
  exists (pc : class_id) (l1 l2 : loc) (st1' st2' : state),
    call_on_new 1 "SneakersCreator" "factory_method" imported
    = (Val (VObj l1), st1') /\
    call_on_new 1 "SneakersCreator" "factory_method" (allocated 3 imported)
    = (Val (VObj l2), st2') /\
    heap st1' !! l1 = Some {| o_class := pc; o_dict := ∅ |} /\
    heap st2' !! l2 = Some {| o_class := pc; o_dict := ∅ |} /\
    (exists shoes,
        globals imported !! "Shoes" = Some shoes /\
        issubclass (classes imported) pc shoes = true) /\
    is_Some (class_getattr (classes imported) pc "operation") /\
    exists s, forall d,
      call_method (S d) (VObj l1) "operation" st1' = (Val (VStr s), st1') /\
      call_method (S d) (VObj l2) "operation" st2' = (Val (VStr s), st2').
Proof.
  split; [exact imported_loaded|].
  split; [exact (allocated_loaded 3 imported imported_loaded)|].
  exact (factory_method_deterministic sneakers 0 0 imported
           (allocated 3 imported) imported_loaded
           (allocated_loaded 3 imported imported_loaded)).
Defined.

Lemma creator_text_inj (v1 v2 : variant) :
  creator_text v1 = creator_text v2 -> v1 = v2.
Proof. destruct v1, v2; intros H; try reflexivity; discriminate H. Qed.

(** C9.  The two concrete creators give different texts: both
    [SneakersCreator().some_operation()] and
    [CrocksCreator().some_operation()] return a string, and the two
    strings are never equal; for any two concrete creators the returned
    strings are equal exactly when the creators are the same variant, and
    [variant_of_text] reads the variant back from the returned string. *)
Theorem some_operation_distinct (d1 d2 : nat) (st1 st2 : state) :
  module_loaded st1 -> module_loaded st2 ->
  (exists s1 s2 st1' st2',
      call_on_new (S (S d1)) "SneakersCreator" "some_operation" st1
      = (Val (VStr s1), st1') /\
      call_on_new (S (S d2)) "CrocksCreator" "some_operation" st2
      = (Val (VStr s2), st2') /\
      s1 <> s2) /\
  (forall v1 v2,
    exists s1 s2 st1' st2',
      call_on_new (S (S d1)) (creator_name v1) "some_operation" st1
      = (Val (VStr s1), st1') /\
      call_on_new (S (S d2)) (creator_name v2) "some_operation" st2
      = (Val (VStr s2), st2') /\
      (s1 = s2 <-> v1 = v2) /\
      variant_of_text s1 = Some v1 /\
      variant_of_text s2 = Some v2).
Proof.
  intros H1 H2.
  assert (Hall : forall v1 v2,
    exists s1 s2 st1' st2',
      call_on_new (S (S d1)) (creator_name v1) "some_operation" st1
      = (Val (VStr s1), st1') /\
      call_on_new (S (S d2)) (creator_name v2) "some_operation" st2
      = (Val (VStr s2), st2') /\
      (s1 = s2 <-> v1 = v2) /\
      variant_of_text s1 = Some v1 /\
      variant_of_text s2 = Some v2).
  { intros v1 v2.
    destruct (call_on_new_some_operation v1 d1 st1 H1) as (t1 & F1 & _).
    destruct (call_on_new_some_operation v2 d2 st2 H2) as (t2 & F2 & _).
    exists (creator_text v1), (creator_text v2), t1, t2.
    split_and!; [exact F1 | exact F2 | | |].
    - split.
      + apply creator_text_inj.
      + intros ->. reflexivity.
    - destruct v1; reflexivity.
    - destruct v2; reflexivity. }
  split; [|exact Hall].
  destruct (Hall sneakers crocks) as (s1 & s2 & t1 & t2 & F1 & F2 & Hiff & _).
  exists s1, s2, t1, t2. split_and!; [exact F1 | exact F2 |].
  intros E. pose proof (proj1 Hiff E) as Hv. discriminate Hv.
Qed.

Lemma some_operation_distinct_witness :
  module_loaded imported /\
  exists s1 s2 st1' st2',
    call_on_new 2 "SneakersCreator" "some_operation" imported
    = (Val (VStr s1), st1') /\
    call_on_new 2 "CrocksCreator" "some_operation" imported
    = (Val (VStr s2), st2') /\
    s1 <> s2.
Proof.
  split; [exact imported_loaded|].
  exact (proj1 (some_operation_distinct 0 0 imported imported
                  imported_loaded imported_loaded)).
Defined.

(** C10.  [some_operation], and the [factory_method] it calls, leave the
    creator as it was: after the call the instance has the same class and
    the same [__dict__], every instance that existed is unchanged, and so
    are the classes, the globals and the output; a second call on the
    same instance returns the same text.  This holds for every instance
    of a concrete creator, freshly constructed or not. *)
Theorem some_operation_frame (v : variant) (depth : nat) (st : state)
    (l : loc) (o : object) :
  module_loaded st ->
  heap st !! l = Some o ->
  instance_of (creator_name v) o ->
  o_dict o !! "some_operation" = None ->
  o_dict o !! "factory_method" = None ->
  exists s st1 st2,
    call_method (S (S depth)) (VObj l) "some_operation" st
    = (Val (VStr s), st1) /\
    heap st1 !! l = Some o /\
    (forall l' o', heap st !! l' = Some o' -> heap st1 !! l' = Some o') /\
    classes st1 = classes st /\
    globals st1 = globals st /\
    stdout st1 = stdout st /\
    call_method (S (S depth)) (VObj l) "some_operation" st1
    = (Val (VStr s), st2) /\
    heap st2 !! l = Some o.
Proof.
  intros Hst Hl Ho Hso Hfm.
  destruct (call_some_operation v depth st l o Hst Hl Ho Hso Hfm)
    as (p & Hp & Hcall).
  pose proof (allocated_loaded p st Hst) as Hst1.
  pose proof (allocated_preserves p st l o Hl) as Hl1.
  destruct (call_some_operation v depth _ l o Hst1 Hl1 Ho Hso Hfm)
    as (p' & Hp' & Hcall').
  exists (creator_text v), (allocated p st), (allocated p' (allocated p st)).
  split_and!; try reflexivity; try assumption.
  - intros l' o'. apply allocated_preserves.
  - apply allocated_preserves, Hl1.
Qed.

Lemma some_operation_frame_witness :
  exists s st1 st2,
    call_method 2 (VObj 1%positive) "some_operation" (allocated 4 imported)
    = (Val (VStr s), st1) /\
    heap st1 !! 1%positive = Some {| o_class := 4; o_dict := ∅ |} /\
    (forall l' o',
        heap (allocated 4 imported) !! l' = Some o' ->
        heap st1 !! l' = Some o') /\
    classes st1 = classes (allocated 4 imported) /\
    globals st1 = globals (allocated 4 imported) /\
    stdout st1 = stdout (allocated 4 imported) /\
    call_method 2 (VObj 1%positive) "some_operation" st1
    = (Val (VStr s), st2) /\
    heap st2 !! 1%positive = Some {| o_class := 4; o_dict := ∅ |}.
Proof.
  apply (some_operation_frame crocks 0 (allocated 4 imported) 1%positive
           {| o_class := 4; o_dict := ∅ |}).
  - exact (allocated_loaded 4 imported imported_loaded).
  - vm_compute; reflexivity.
  - vm_compute; reflexivity.
  - vm_compute; reflexivity.
  - vm_compute; reflexivity.
Defined.

(** ** The client and the program *)

(** What [print] does with one string. *)
Lemma print_string (s : string) (st : state) :
  print [VStr s] st
  = (Val VNone, with_stdout (stdout st +:+ (s +:+ line_break)) st).
Proof. reflexivity. Qed.

(** C5.  Given any creator whose [some_operation] returns a text [s], the
    client writes [s] and one line break to standard output, after what
    the call itself did, writes nothing else, and returns [None].  In
    particular [client_side_method(SneakersCreator())] adds exactly
    "ShoesCreator works with: Sneakers shoes!" and a line break to the
    output. *)
Theorem client_side_method_prints :
  (forall (call : dispatch) (creator : value) (st st1 : state) (s : string),
      call creator "some_operation" st = (Val (VStr s), st1) ->
      client_side_method call creator st
      = (Val VNone, with_stdout (stdout st1 +:+ (s +:+ line_break)) st1)) /\
  (forall (depth : nat) (st : state),
      module_loaded st ->
      exists st',
        (let* creator := construct "SneakersCreator" in
         client_side_method (call_method (S (S depth))) creator) st
        = (Val VNone, st') /\
        stdout st'
        = stdout st
          +:+ ("ShoesCreator works with: Sneakers shoes!" +:+ line_break)).
Proof.
  assert (Hgen : forall (call : dispatch) (creator : value)
                   (st st1 : state) (s : string),
      call creator "some_operation" st = (Val (VStr s), st1) ->
      client_side_method call creator st
      = (Val VNone, with_stdout (stdout st1 +:+ (s +:+ line_break)) st1)).
  { intros call creator st st1 s H. unfold client_side_method.
    rewrite (bind_val _ _ _ _ _ H). cbn [py_str].
    unfold bind at 1, ret. apply print_string. }
  split; [exact Hgen|].
  intros depth st Hst.
  destruct (construct_creator sneakers st Hst) as (c & Hc & Hnew).
  destruct (call_some_operation sneakers depth (allocated c st) _ _
              (allocated_loaded c st Hst) (allocated_lookup c st)
              Hc (lookup_empty _) (lookup_empty _)) as (p & Hp & Hcall).
  eexists. rewrite (bind_val _ _ _ _ _ Hnew).
  rewrite (Hgen _ _ _ _ _ Hcall). split; reflexivity.
Qed.

Lemma client_side_method_prints_witness :
  module_loaded imported /\
  exists st',
    (let* creator := construct "SneakersCreator" in
     client_side_method (call_method 2) creator) imported
    = (Val VNone, st') /\
    stdout st'
    = stdout imported
      +:+ ("ShoesCreator works with: Sneakers shoes!" +:+ line_break).
Proof.
  split; [exact imported_loaded|].
  exact (proj2 client_side_method_prints 0 imported imported_loaded).
Defined.


(** C6.  Run as the entry point, the program ends without an exception
    and writes five lines: the header "SneakersCreator:", the text of a
    [SneakersCreator], a blank line, the header "CrocksCreator:", the
    text of a [CrocksCreator]; four lines are not blank, one is, and the
    headers carry the names of the two creator classes. *)
Theorem program_run (depth : nat) :
  (run_program (S (S depth))).1 = Val tt /\
  lines (stdout (run_program (S (S depth))).2) = program_output /\
  stdout (run_program (S (S depth))).2
  = join line_break program_output +:+ line_break /\
  filter (fun s => nonblank s = true)
    (lines (stdout (run_program (S (S depth))).2))
  = [ creator_name sneakers +:+ ":"; creator_text sneakers;
      creator_name crocks +:+ ":"; creator_text crocks ] /\
  length (filter (fun s => nonblank s = false)
            (lines (stdout (run_program (S (S depth))).2))) = 1.
Proof.
  assert (E : run_program (S (S depth)) = run_program 2).
  { vm_compute. reflexivity. }
  rewrite E. split_and!; vm_compute; reflexivity.
Qed.

Lemma program_run_headers :
  (exists c cls,
      globals imported !! "SneakersCreator" = Some c /\
      classes imported !! c = Some cls /\
      nth 0 program_output "" = c_name cls +:+ ":") /\
  (exists c cls,
      globals imported !! "CrocksCreator" = Some c /\
      classes imported !! c = Some cls /\
      nth 3 program_output "" = c_name cls +:+ ":").
Proof.
  split.
  - exists 3, (default class_object (classes imported !! 3)).
    split_and!; table.
  - exists 4, (default class_object (classes imported !! 4)).
    split_and!; table.
Qed.

(** ** Abstract classes *)

(** A call of a class that returns has found a class without abstract
    names. *)
Lemma py_new_val_inv (c : class_id) (st st' : state) (v : value) :
  py_new c st = (Val v, st') ->
  exists cls, classes st !! c = Some cls /\ c_abstractmethods cls = ∅.
Proof.
  unfold py_new, bind, get_class, bind, get_state.
  destruct (classes st !! c) as [cls|]; [|discriminate].
  cbn [ret]. destruct (class_getattr (classes st) c "__new__");
    [discriminate|].
  destruct (decide (c_abstractmethods cls = ∅)) as [He|_]; [|discriminate].
  intros _. exists cls. split; [reflexivity | exact He].
Qed.

(** The classes of the module that can be instantiated and have
    [some_operation] are the two concrete creators; those with
    [operation] are the two concrete products. *)
Lemma concrete_classes (c : class_id) (cls : pyclass) :
  classes imported !! c = Some cls ->
  c_abstractmethods cls = ∅ ->
  (is_Some (class_getattr (classes imported) c "some_operation") ->
   exists v, globals imported !! creator_name v = Some c) /\
  (is_Some (class_getattr (classes imported) c "operation") ->
   exists v, globals imported !! product_name v = Some c).
Proof.
  intros Hc Ha.
  assert (Hno : forall x, x ∈ c_abstractmethods cls -> False).
  { intros x Hx. rewrite Ha in Hx. exact (not_elem_of_empty x Hx). }
  clear Ha.
  do 8 (try destruct c as [|c]); vm_compute in Hc; try discriminate Hc;
    injection Hc as <-.
  all: try (exfalso; apply (Hno "factory_method"); table).
  all: try (exfalso; apply (Hno "operation"); table).
  all: clear Hno; split; intros [f Hf]; vm_compute in Hf;
    try discriminate Hf.
  - exists sneakers. table.
  - exists crocks. table.
  - exists sneakers. table.
  - exists crocks. table.
Qed.

(** C8.  Instantiating [ShoesCreator] or [Shoes] raises [TypeError] and
    creates nothing; hence a class of the module whose call returns an
    instance and on which [some_operation] (or [operation]) resolves is
    one of the two concrete creators (or products). *)
Theorem abstract_classes_not_instantiable (st : state) :
  module_loaded st ->
  construct "ShoesCreator" st
  = (Exc (TypeError_abstract "ShoesCreator" {["factory_method"]}), st) /\
  construct "Shoes" st
  = (Exc (TypeError_abstract "Shoes" {["operation"]}), st) /\
  (forall c v st',
      py_new c st = (Val v, st') ->
      (is_Some (class_getattr (classes st) c "some_operation") ->
       exists w, globals st !! creator_name w = Some c) /\
      (is_Some (class_getattr (classes st) c "operation") ->
       exists w, globals st !! product_name w = Some c)).
Proof.
  intros Hst. split_and!.
  - unfold construct.
    rewrite (bind_val _ _ _ _ _
               (lookup_global_loaded st Hst "ShoesCreator" 2 ltac:(table))).
    rewrite (py_new_abstract st Hst 2
               (default class_object (classes imported !! 2)));
      [ f_equal; f_equal; table | table | | table ].
    intros E. apply (not_elem_of_empty (C:=gset string) "factory_method").
    rewrite <- E. table.
  - unfold construct.
    rewrite (bind_val _ _ _ _ _
               (lookup_global_loaded st Hst "Shoes" 5 ltac:(table))).
    rewrite (py_new_abstract st Hst 5
               (default class_object (classes imported !! 5)));
      [ f_equal; f_equal; table | table | | table ].
    intros E. apply (not_elem_of_empty (C:=gset string) "operation").
    rewrite <- E. table.
  - intros c v st' Hnew.
    destruct (py_new_val_inv c st st' v Hnew) as (cls & Hc & Ha).
    rewrite (loaded_classes st Hst) in *.
    rewrite (loaded_globals st Hst).
    exact (concrete_classes c cls Hc Ha).
Qed.

Lemma abstract_classes_not_instantiable_witness :
  module_loaded imported /\
  construct "ShoesCreator" imported
  = (Exc (TypeError_abstract "ShoesCreator" {["factory_method"]}), imported) /\
  construct "Shoes" imported
  = (Exc (TypeError_abstract "Shoes" {["operation"]}), imported).
Proof.
  split; [exact imported_loaded|].
  destruct (abstract_classes_not_instantiable imported imported_loaded)
    as (H1 & H2 & _).
  split; [exact H1 | exact H2].
Defined.

(** ** Subclasses that leave the abstract method out *)

Lemma py_new_abstract_any (c : class_id) (cls : pyclass) (st : state) :
  classes st !! c = Some cls ->
  class_getattr (classes st) c "__new__" = None ->
  c_abstractmethods cls <> ∅ ->
  py_new c st
  = (Exc (TypeError_abstract (c_name cls) (c_abstractmethods cls)), st).
Proof.
  intros Hc Hnew Ha. unfold py_new, bind, get_class, bind, get_state.
  rewrite Hc. cbn [ret]. rewrite Hnew.
  destruct (decide (c_abstractmethods cls = ∅)) as [He|_]; [contradiction|].
  reflexivity.
Qed.

(** Classes added at the end of the table do not change a lookup along
    an order that only mentions earlier classes. *)
Lemma mro_lookup_app (cs extra : list pyclass) (mro : list class_id)
    (name : string) :
  Forall (fun c => c < length cs) mro ->
  mro_lookup (cs ++ extra) mro name = mro_lookup cs mro name.
Proof.
  induction 1 as [|c mro Hc _ IH]; [reflexivity|].
  cbn [mro_lookup]. rewrite (lookup_app_l cs extra c Hc), IH. reflexivity.
Qed.

Lemma plain_names_no_new (ns : gmap string function) :
  map_Forall (fun k _ => plain_name k) ns -> ns !! "__new__" = None.
Proof.
  intros Hns. destruct (ns !! "__new__") as [f|] eqn:E; [|reflexivity].
  pose proof (Hns _ _ E) as Hp. discriminate Hp.
Qed.

(** The [class] statement on a base of the module succeeds, whatever the
    body implements. *)
Lemma class_stmt_loaded (st : state) (name bname : string) (b : class_id)
    (base : pyclass) (ns : gmap string function) :
  module_loaded st ->
  globals imported !! bname = Some b ->
  classes imported !! b = Some base ->
  map_Forall (fun k _ => plain_name k) ns ->
  class_stmt name bname ns st = (Val tt, subclassed name b base ns st).
Proof.
  intros Hst Hb Hbase Hns. unfold class_stmt.
  rewrite (bind_val _ _ _ _ _ (lookup_global_loaded st Hst _ _ Hb)).
  rewrite (bind_val _ _ _ _ _ (get_class_loaded st Hst _ _ Hbase)).
  destruct (decide (map_Forall (fun k _ => plain_name k) ns))
    as [_|Hn]; [|contradiction].
  reflexivity.
Qed.

(** The abstract name of the base stays abstract in a subclass that does
    not give it a concrete function. *)
Lemma required_stays_abstract (ns : gmap string function)
    (cs : list pyclass) (base : pyclass) (name : string) (f : function) :
  name ∈ c_abstractmethods base ->
  mro_lookup cs (c_mro base) name = Some f ->
  f_isabstract f = true ->
  (forall g, ns !! name = Some g -> f_isabstract g = true) ->
  name ∈ compute_abstractmethods ns cs base.
Proof.
  intros Hin Hl Hf Hns. unfold compute_abstractmethods.
  apply elem_of_union_r, elem_of_filter. split; [|exact Hin].
  unfold is_abstract_in. destruct (ns !! name) as [g|] eqn:E.
  - exact (Hns g eq_refl).
  - rewrite Hl. exact Hf.
Qed.

(** Calling the new class raises [TypeError] as soon as one abstract name
    is left, and creates nothing. *)
Lemma construct_subclassed (st : state) (name : string) (b : class_id)
    (base : pyclass) (ns : gmap string function) (required : string) :
  module_loaded st ->
  c_abc base = true ->
  Forall (fun c => c < length (classes imported)) (c_mro base) ->
  mro_lookup (classes imported) (c_mro base) "__new__" = None ->
  map_Forall (fun k _ => plain_name k) ns ->
  required ∈ compute_abstractmethods ns (classes st) base ->
  construct name (subclassed name b base ns st)
  = (Exc (TypeError_abstract name
            (compute_abstractmethods ns (classes st) base)),
     subclassed name b base ns st).
Proof.
  intros Hst Habc Hmro Hnew Hns Hreq.
  set (cls := new_class name b base ns (classes st)).
  assert (Hcls : classes (subclassed name b base ns st)
                   !! length (classes st) = Some cls).
  { cbn [classes subclassed]. apply list_lookup_middle. reflexivity. }
  unfold construct.
  assert (Hg : lookup_global name (subclassed name b base ns st)
               = (Val (length (classes st)), subclassed name b base ns st)).
  { unfold lookup_global, bind, get_state. cbn [globals subclassed].
    rewrite lookup_insert_eq. reflexivity. }
  rewrite (bind_val _ _ _ _ _ Hg).
  rewrite (py_new_abstract_any _ cls _ Hcls).
  - unfold cls, new_class. cbn [c_name c_abstractmethods].
    rewrite Habc. reflexivity.
  - unfold class_getattr. rewrite Hcls. unfold cls at 1.
    cbn [c_mro new_class mro_lookup]. rewrite Hcls.
    unfold cls at 1. cbn [c_dict new_class].
    rewrite (plain_names_no_new ns Hns).
    cbn [classes subclassed]. rewrite (loaded_classes st Hst).
    rewrite (mro_lookup_app _ _ _ _ Hmro). exact Hnew.
  - unfold cls, new_class. cbn [c_abstractmethods]. rewrite Habc.
    intros E. rewrite E in Hreq. exact (not_elem_of_empty _ Hreq).
Qed.

Lemma base_class (h : hierarchy) :
  exists b base f,
    globals imported !! base_name h = Some b /\
    classes imported !! b = Some base /\
    c_abc base = true /\
    Forall (fun c => c < length (classes imported)) (c_mro base) /\
    mro_lookup (classes imported) (c_mro base) "__new__" = None /\
    required h ∈ c_abstractmethods base /\
    mro_lookup (classes imported) (c_mro base) (required h) = Some f /\
    f_isabstract f = true.
Proof.
  destruct h.
  - exists 2, (default class_object (classes imported !! 2)),
      (abstractmethod (def code_ShoesCreator_factory_method)).
    split_and!; try table.
    vm_compute. repeat constructor.
  - exists 5, (default class_object (classes imported !! 5)),
      (abstractmethod (def code_Shoes_operation)).
    split_and!; try table.
    vm_compute. repeat constructor.
Qed.

(** C7, as the code has it.  A subclass of [ShoesCreator] (or of [Shoes])
    whose body gives no concrete [factory_method] (or [operation]) is
    accepted by its [class] statement; it is rejected when it is
    instantiated: the call of the class raises [TypeError] naming the
    method and creates no instance, so no method of it is ever called.
    The concrete variants of the module have no failure path: their
    instantiation, [some_operation] and [operation] return. *)
Theorem unimplemented_rejected_at_instantiation (h : hierarchy)
    (name : string) (ns : gmap string function) (st : state) :
  module_loaded st ->
  map_Forall (fun k _ => plain_name k) ns ->
  (forall f, ns !! required h = Some f -> f_isabstract f = true) ->
  (exists st1 names,
      class_stmt name (base_name h) ns st = (Val tt, st1) /\
      required h ∈ names /\
      construct name st1 = (Exc (TypeError_abstract name names), st1) /\
      heap st1 = heap st) /\
  (forall v depth,
      (exists st',
          call_on_new (S (S depth)) (creator_name v) "some_operation" st
          = (Val (VStr (creator_text v)), st')) /\
      (exists st',
          call_on_new (S depth) (product_name v) "operation" st
          = (Val (VStr (product_text v)), st'))).
Proof.
  intros Hst Hns Hreq. split.
  - destruct (base_class h)
      as (b & base & f & Hb & Hbase & Habc & Hmro & Hnew & Hin & Hl & Hf).
    assert (Hmem : required h
                   ∈ compute_abstractmethods ns (classes st) base).
    { rewrite (loaded_classes st Hst).
      exact (required_stays_abstract ns _ base _ f Hin Hl Hf Hreq). }
    exists (subclassed name b base ns st),
      (compute_abstractmethods ns (classes st) base).
    split_and!.
    + exact (class_stmt_loaded st name _ b base ns Hst Hb Hbase Hns).
    + exact Hmem.
    + exact (construct_subclassed st name b base ns _
               Hst Habc Hmro Hnew Hns Hmem).
    + reflexivity.
  - intros v depth. split.
    + destruct (call_on_new_some_operation v depth st Hst) as (st' & H & _).
      exists st'. exact H.
    + destruct (construct_product v st Hst) as (c & Hc & Hnew).
      exists (allocated c st). unfold call_on_new.
      rewrite (bind_val _ _ _ _ _ Hnew).
      exact (call_operation v depth (allocated c st) _ _
               (allocated_loaded c st Hst) (allocated_lookup c st)
               Hc (lookup_empty _)).
Qed.

Lemma unimplemented_rejected_at_instantiation_witness :
  module_loaded imported /\
  map_Forall (fun k _ => plain_name k) (∅ : gmap string function) /\
  exists st1 names,
    class_stmt "BarefootCreator" "ShoesCreator" ∅ imported = (Val tt, st1) /\
    "factory_method" ∈ names /\
    construct "BarefootCreator" st1
    = (Exc (TypeError_abstract "BarefootCreator" names), st1) /\
    heap st1 = heap imported.
Proof.
  split; [exact imported_loaded|].
  split; [apply map_Forall_empty|].
  apply (unimplemented_rejected_at_instantiation creators
           "BarefootCreator" ∅ imported).
  - exact imported_loaded.
  - apply map_Forall_empty.
  - intros f Hf. rewrite lookup_empty in Hf. discriminate Hf.
Defined.

(** C7, as the specification states it, fails: the statement
    [class BarefootCreator(ShoesCreator): pass] is not rejected.  It
    completes and binds the class; only [BarefootCreator()] raises. *)
Lemma definition_accepts_unimplemented :
  ~ (exists e,
        (class_stmt "BarefootCreator" "ShoesCreator" ∅ imported).1 = Exc e) /\
  (class_stmt "BarefootCreator" "ShoesCreator" ∅ imported).1 = Val tt /\
  is_Some (globals (class_stmt "BarefootCreator" "ShoesCreator" ∅ imported).2
             !! "BarefootCreator") /\
  (construct "BarefootCreator"
     (class_stmt "BarefootCreator" "ShoesCreator" ∅ imported).2).1
  = Exc (TypeError_abstract "BarefootCreator" {["factory_method"]}).
Proof.
  assert (E : (class_stmt "BarefootCreator" "ShoesCreator" ∅ imported).1
              = Val tt) by table.
  split_and!.
  - intros [e He]. rewrite E in He. discriminate He.
  - exact E.
  - vm_compute. eauto.
  - table.
Qed.

(** * Further properties of the module *)

(** ** The client on existing instances *)

Lemma with_stdout_loaded (out : string) (st : state) :
  module_loaded st -> module_loaded (with_stdout out st).
Proof. intros [Hc Hg]. split; assumption. Qed.

(** [client_side_method] on any instance of either concrete creator adds
    the text of the variant and one line break to the output, returns
    [None], and leaves the classes, the globals and every existing
    instance as they were. *)
Theorem client_side_method_on_instance (v : variant) (depth : nat)
    (st : state) (l : loc) (o : object) :
  module_loaded st ->
  heap st !! l = Some o ->
  instance_of (creator_name v) o ->
  o_dict o !! "some_operation" = None ->
  o_dict o !! "factory_method" = None ->
  exists st1,
    client_side_method (call_method (S (S depth))) (VObj l) st
    = (Val VNone, st1) /\
    stdout st1 = stdout st +:+ (creator_text v +:+ line_break) /\
    module_loaded st1 /\
    (forall l' o', heap st !! l' = Some o' -> heap st1 !! l' = Some o').
Proof.
  intros Hst Hl Ho Hso Hfm.
  destruct (call_some_operation v depth st l o Hst Hl Ho Hso Hfm)
    as (p & Hp & Hcall).
  exists (with_stdout (stdout st +:+ (creator_text v +:+ line_break))
            (allocated p st)).
  split_and!.
  - unfold client_side_method. rewrite (bind_val _ _ _ _ _ Hcall).
    cbn [py_str]. unfold bind at 1, ret.
    exact (print_string (creator_text v) (allocated p st)).
  - reflexivity.
  - apply with_stdout_loaded, allocated_loaded, Hst.
  - intros l' o' Hl'. exact (allocated_preserves p st l' o' Hl').
Qed.

Lemma client_side_method_on_instance_witness :
  exists st1,
    client_side_method (call_method 2) (VObj 1%positive)
      (allocated 4 imported)
    = (Val VNone, st1) /\
    stdout st1
    = stdout (allocated 4 imported)
      +:+ (creator_text crocks +:+ line_break) /\
    module_loaded st1 /\
    (forall l' o',
        heap (allocated 4 imported) !! l' = Some o' ->
        heap st1 !! l' = Some o').
Proof.
  apply (client_side_method_on_instance crocks 0 (allocated 4 imported)
           1%positive {| o_class := 4; o_dict := ∅ |}).
  - exact (allocated_loaded 4 imported imported_loaded).
  - vm_compute; reflexivity.
  - vm_compute; reflexivity.
  - vm_compute; reflexivity.
  - vm_compute; reflexivity.
Defined.

(** ** Wrong receivers *)

Lemma call_method_missing (depth : nat) (st : state) (l : loc)
    (o : object) (cls : pyclass) (name : string) :
  heap st !! l = Some o ->
  o_dict o !! name = None ->
  classes st !! o_class o = Some cls ->
  class_getattr (classes st) (o_class o) name = None ->
  plain_name name ->
  call_method (S depth) (VObj l) name st
  = (Exc (AttributeError (c_name cls) name), st).
Proof.
  intros Hl Hd Hc Hf Hp. cbn [call_method]. unfold bind at 1, get_state.
  rewrite Hl, Hd. unfold bind at 1, get_class, bind, get_state.
  rewrite Hc. unfold ret. rewrite Hf.
  destruct (decide (plain_name name)) as [_|Hn]; [|contradiction].
  reflexivity.
Qed.

Lemma hierarchies_apart (v : variant) :
  (exists c cls,
      globals imported !! product_name v = Some c /\
      classes imported !! c = Some cls /\
      c_name cls = product_name v /\
      class_getattr (classes imported) c "some_operation" = None /\
      class_getattr (classes imported) c "factory_method" = None) /\
  (exists c cls,
      globals imported !! creator_name v = Some c /\
      classes imported !! c = Some cls /\
      c_name cls = creator_name v /\
      class_getattr (classes imported) c "operation" = None).
Proof.
  destruct v; split.
  - exists 6, (default class_object (classes imported !! 6)).
    split_and!; table.
  - exists 3, (default class_object (classes imported !! 3)).
    split_and!; table.
  - exists 7, (default class_object (classes imported !! 7)).
    split_and!; table.
  - exists 4, (default class_object (classes imported !! 4)).
    split_and!; table.
Qed.

(** The annotation [creator: ShoesCreator] is not checked.  Given a
    product instead of a creator, [client_side_method] raises
    [AttributeError] for [some_operation] on the product's class, having
    printed nothing and changed nothing; likewise [operation] called on
    a creator raises [AttributeError]. *)
Theorem client_side_method_wrong_receiver (v : variant) (depth : nat)
    (st : state) (l : loc) (o : object) :
  module_loaded st ->
  heap st !! l = Some o ->
  (instance_of (product_name v) o ->
   o_dict o !! "some_operation" = None ->
   client_side_method (call_method (S depth)) (VObj l) st
   = (Exc (AttributeError (product_name v) "some_operation"), st)) /\
  (instance_of (creator_name v) o ->
   o_dict o !! "operation" = None ->
   call_method (S depth) (VObj l) "operation" st
   = (Exc (AttributeError (creator_name v) "operation"), st)).
Proof.
  intros Hst Hl.
  destruct (hierarchies_apart v)
    as ((c & cls & Hg & Hc & Hn & Hso & _) & (c' & cls' & Hg' & Hc' & Hn' & Hop)).
  split; intros Ho Hd; unfold instance_of in Ho.
  - rewrite Hg in Ho. injection Ho as ->.
    unfold client_side_method.
    rewrite (bind_exc _ _ _ _ _
               (call_method_missing depth st l o cls "some_operation"
                  Hl Hd
                  ltac:(rewrite (loaded_classes st Hst); exact Hc)
                  ltac:(rewrite (loaded_classes st Hst); exact Hso)
                  eq_refl)).
    rewrite Hn. reflexivity.
  - rewrite Hg' in Ho. injection Ho as ->.
    rewrite (call_method_missing depth st l o cls' "operation" Hl Hd
               ltac:(rewrite (loaded_classes st Hst); exact Hc')
               ltac:(rewrite (loaded_classes st Hst); exact Hop)
               eq_refl).
    rewrite Hn'. reflexivity.
Qed.

Lemma client_side_method_wrong_receiver_witness :
  client_side_method (call_method 1) (VObj 1%positive)
    (allocated 6 imported)
  = (Exc (AttributeError "Sneakers" "some_operation"),
     allocated 6 imported).
Proof.
  apply (proj1 (client_side_method_wrong_receiver sneakers 0
                  (allocated 6 imported) 1%positive
                  {| o_class := 6; o_dict := ∅ |}
                  (allocated_loaded 6 imported imported_loaded)
                  ltac:(vm_compute; reflexivity))).
  - vm_compute; reflexivity.
  - vm_compute; reflexivity.
Defined.

(** ** New products on every call *)

(** [factory_method] builds a new product each time it is called: two
    calls in a row on the same creator return two different instances
    of the variant's product class, neither of which existed before its
    call, and the first is still there, unchanged, after the second. *)
Theorem factory_method_new_each_call (v : variant) (depth : nat)
    (st : state) (l : loc) (o : object) :
  module_loaded st ->
  heap st !! l = Some o ->
  instance_of (creator_name v) o ->
  o_dict o !! "factory_method" = None ->
  exists (pc : class_id) (l1 l2 : loc) (st1 st2 : state),
    globals imported !! product_name v = Some pc /\
    call_method (S depth) (VObj l) "factory_method" st
    = (Val (VObj l1), st1) /\
    call_method (S depth) (VObj l) "factory_method" st1
    = (Val (VObj l2), st2) /\
    l1 <> l2 /\
    heap st !! l1 = None /\
    heap st1 !! l2 = None /\
    heap st2 !! l1 = Some {| o_class := pc; o_dict := ∅ |} /\
    heap st2 !! l2 = Some {| o_class := pc; o_dict := ∅ |}.
Proof.
  intros Hst Hl Ho Hfm.
  destruct (call_factory_method v depth st l o Hst Hl Ho Hfm)
    as (pc & Hpc & Hcall1).
  destruct (call_factory_method v depth (allocated pc st) l o
              (allocated_loaded pc st Hst)
              (allocated_preserves pc st l o Hl) Ho Hfm)
    as (pc' & Hpc' & Hcall2).
  rewrite Hpc in Hpc'. injection Hpc' as <-.
  assert (Hfresh : forall h : gmap loc object, h !! fresh (dom h) = None).
  { intros h. apply not_elem_of_dom, is_fresh. }
  exists pc, (fresh (dom (heap st))),
    (fresh (dom (heap (allocated pc st)))),
    (allocated pc st), (allocated pc (allocated pc st)).
  split_and!; try assumption.
  - intros E. pose proof (allocated_lookup pc st) as H1.
    rewrite E, Hfresh in H1. discriminate H1.
  - apply Hfresh.
  - apply Hfresh.
  - apply allocated_preserves, allocated_lookup.
  - apply allocated_lookup.
Qed.

Lemma factory_method_new_each_call_witness :
  exists (pc : class_id) (l1 l2 : loc) (st1 st2 : state),
    globals imported !! product_name sneakers = Some pc /\
    call_method 1 (VObj 1%positive) "factory_method" (allocated 3 imported)
    = (Val (VObj l1), st1) /\
    call_method 1 (VObj 1%positive) "factory_method" st1
    = (Val (VObj l2), st2) /\
    l1 <> l2 /\
    heap (allocated 3 imported) !! l1 = None /\
    heap st1 !! l2 = None /\
    heap st2 !! l1 = Some {| o_class := pc; o_dict := ∅ |} /\
    heap st2 !! l2 = Some {| o_class := pc; o_dict := ∅ |}.
Proof.
  apply (factory_method_new_each_call sneakers 0 (allocated 3 imported)
           1%positive {| o_class := 3; o_dict := ∅ |}).
  - exact (allocated_loaded 3 imported imported_loaded).
  - vm_compute; reflexivity.
  - vm_compute; reflexivity.
  - vm_compute; reflexivity.
Defined.

(** ** The main block in any state of the module *)

Lemma append_assoc (a b c : string) : (a +:+ b) +:+ c = a +:+ (b +:+ c).
Proof.
  induction a as [|x a IH]; [reflexivity|].
  change (String x ((a +:+ b) +:+ c) = String x (a +:+ (b +:+ c))).
  f_equal. exact IH.
Qed.

Lemma print_nothing (st : state) :
  print [] st = (Val VNone, with_stdout (stdout st +:+ line_break) st).
Proof. reflexivity. Qed.

(** [client_side_method(C())] for a concrete creator [C]. *)
Lemma client_on_new (v : variant) (depth : nat) (st : state) :
  module_loaded st ->
  exists st1,
    (let* creator := construct (creator_name v) in
     client_side_method (call_method (S (S depth))) creator) st
    = (Val VNone, st1) /\
    stdout st1 = stdout st +:+ (creator_text v +:+ line_break) /\
    module_loaded st1 /\
    (forall l o, heap st !! l = Some o -> heap st1 !! l = Some o).
Proof.
  intros Hst. destruct (construct_creator v st Hst) as (c & Hc & Hnew).
  destruct (call_some_operation v depth (allocated c st) _ _
              (allocated_loaded c st Hst) (allocated_lookup c st)
              Hc (lookup_empty _) (lookup_empty _)) as (p & Hp & Hcall).
  exists (with_stdout (stdout st +:+ (creator_text v +:+ line_break))
            (allocated p (allocated c st))).
  split_and!.
  - rewrite (bind_val _ _ _ _ _ Hnew). unfold client_side_method.
    rewrite (bind_val _ _ _ _ _ Hcall). cbn [py_str].
    unfold bind at 1, ret.
    exact (print_string (creator_text v) (allocated p (allocated c st))).
  - reflexivity.
  - apply with_stdout_loaded, allocated_loaded, allocated_loaded, Hst.
  - intros l o Hl. apply allocated_preserves, allocated_preserves, Hl.
Qed.

(** The block under [if __name__ == "__main__":], run in any state of the
    imported module and not only at the end of the module body, ends
    normally, adds exactly the five lines of the program to whatever was
    printed before, and leaves the classes, the globals and every
    existing instance as they were. *)
Theorem main_in_any_state (depth : nat) (st : state) :
  module_loaded st ->
  exists st',
    main (call_method (S (S depth))) st = (Val tt, st') /\
    stdout st' = stdout st +:+ program_text /\
    module_loaded st' /\
    (forall l o, heap st !! l = Some o -> heap st' !! l = Some o).
Proof.
  intros Hst. unfold main.
  set (st1 := with_stdout (stdout st +:+ ("SneakersCreator:" +:+ line_break)) st).
  assert (H1 : module_loaded st1) by (apply with_stdout_loaded, Hst).
  destruct (client_on_new sneakers depth st1 H1)
    as (st2 & E2 & O2 & H2 & P2).
  set (st3 := with_stdout (stdout st2 +:+ line_break) st2).
  set (st4 := with_stdout (stdout st3 +:+ ("CrocksCreator:" +:+ line_break)) st3).
  assert (H4 : module_loaded st4)
    by (apply with_stdout_loaded, with_stdout_loaded, H2).
  destruct (client_on_new crocks depth st4 H4)
    as (st5 & E5 & O5 & H5 & P5).
  exists st5.
  rewrite (bind_val _ _ _ _ _ (print_string "SneakersCreator:" st)).
  fold st1. rewrite (bind_val _ _ _ _ _ E2).
  rewrite (bind_val _ _ _ _ _ (print_nothing st2)). fold st3.
  rewrite (bind_val _ _ _ _ _ (print_string "CrocksCreator:" st3)).
  fold st4. rewrite (bind_val _ _ _ _ _ E5).
  split_and!.
  - reflexivity.
  - rewrite O5. unfold st4, st3. cbn [stdout with_stdout].
    rewrite O2. unfold st1. cbn [stdout with_stdout].
    rewrite !append_assoc. reflexivity.
  - exact H5.
  - intros l o Hl. apply P5. unfold st4, st3. cbn [heap with_stdout].
    apply P2. exact Hl.
Qed.

Lemma main_in_any_state_witness :
  module_loaded (allocated 6 imported) /\
  exists st',
    main (call_method 2) (allocated 6 imported) = (Val tt, st') /\
    stdout st' = stdout (allocated 6 imported) +:+ program_text /\
    module_loaded st' /\
    (forall l o,
        heap (allocated 6 imported) !! l = Some o ->
        heap st' !! l = Some o).
Proof.
  split; [exact (allocated_loaded 6 imported imported_loaded)|].
  exact (main_in_any_state 0 (allocated 6 imported)
           (allocated_loaded 6 imported imported_loaded)).
Defined.

(** ** The module among further classes *)

Lemma imported_mro_in_range (c : class_id) (cls : pyclass) :
  classes imported !! c = Some cls ->
  Forall (fun k => k < length (classes imported)) (c_mro cls).
Proof.
  intros Hc.
  do 8 (try destruct c as [|c]); vm_compute in Hc; try discriminate Hc;
    injection Hc as <-; vm_compute; repeat constructor.
Qed.

Lemma py_new_concrete (c : class_id) (cls : pyclass) (st : state) :
  classes st !! c = Some cls ->
  c_abstractmethods cls = ∅ ->
  class_getattr (classes st) c "__new__" = None ->
  class_getattr (classes st) c "__init__" = None ->
  py_new c st = (Val (VObj (fresh (dom (heap st)))), allocated c st).
Proof.
  intros Hc Ha Hnew Hinit. unfold py_new, bind at 1, get_class, bind at 1.
  unfold get_state at 1. rewrite Hc. unfold ret at 1.
  unfold bind at 1, get_state. rewrite Hnew, Hinit.
  destruct (decide (c_abstractmethods cls = ∅)) as [_|Hne]; [|contradiction].
  reflexivity.
Qed.

Section Available.

Variable st : state.
Hypothesis Havail : module_available st.

Lemma available_global (name : string) (c : class_id) :
  globals imported !! name = Some c ->
  lookup_global name st = (Val c, st).
Proof.
  intros Hc. unfold lookup_global, bind, get_state.
  rewrite (lookup_weaken _ _ _ _ Hc (proj2 Havail)). reflexivity.
Qed.

Lemma available_class (c : class_id) (cls : pyclass) :
  classes imported !! c = Some cls ->
  classes st !! c = Some cls.
Proof.
  intros Hc. destruct Havail as [[extra ->] _].
  apply lookup_app_l_Some, Hc.
Qed.

Lemma available_mro_lookup (c : class_id) (cls : pyclass) (name : string) :
  classes imported !! c = Some cls ->
  mro_lookup (classes st) (c_mro cls) name
  = mro_lookup (classes imported) (c_mro cls) name.
Proof.
  intros Hc. destruct Havail as [[extra ->] _].
  apply mro_lookup_app, (imported_mro_in_range c cls Hc).
Qed.

Lemma available_getattr (c : class_id) (cls : pyclass) (name : string) :
  classes imported !! c = Some cls ->
  class_getattr (classes st) c name
  = class_getattr (classes imported) c name.
Proof.
  intros Hc. unfold class_getattr.
  rewrite (available_class c cls Hc), Hc.
  exact (available_mro_lookup c cls name Hc).
Qed.

Lemma available_allocated (c : class_id) :
  module_available (allocated c st).
Proof. destruct Havail as [Hc Hg]. split; assumption. Qed.

(** [C()] for a concrete class of the module. *)
Lemma available_construct (cname : string) (c : class_id) (cls : pyclass) :
  globals imported !! cname = Some c ->
  classes imported !! c = Some cls ->
  c_abstractmethods cls = ∅ ->
  class_getattr (classes imported) c "__new__" = None ->
  class_getattr (classes imported) c "__init__" = None ->
  construct cname st
  = (Val (VObj (fresh (dom (heap st)))), allocated c st).
Proof.
  intros Hg Hc Ha Hn Hi. unfold construct.
  rewrite (bind_val _ _ _ _ _ (available_global _ _ Hg)).
  apply (py_new_concrete c cls st (available_class c cls Hc) Ha).
  - rewrite (available_getattr c cls _ Hc). exact Hn.
  - rewrite (available_getattr c cls _ Hc). exact Hi.
Qed.

(** [p.operation()] on an instance of a concrete product. *)
Lemma available_operation (v : variant) (depth : nat) (l : loc)
    (o : object) :
  heap st !! l = Some o ->
  instance_of (product_name v) o ->
  o_dict o !! "operation" = None ->
  call_method (S depth) (VObj l) "operation" st
  = (Val (VStr (product_text v)), st).
Proof.
  intros Hl Ho Hd.
  destruct (product_class v) as (c & cls & Hg & Hc & _ & _ & _ & _ & Hop).
  unfold instance_of in Ho. rewrite Hg in Ho. injection Ho as ->.
  rewrite (call_method_resolved depth st l o cls _ _ Hl Hd
             (available_class _ cls Hc)
             ltac:(rewrite (available_getattr _ cls _ Hc); exact Hop)).
  destruct v; reflexivity.
Qed.

End Available.

(** [some_operation] on any instance whose class resolves it to
    [ShoesCreator.some_operation] and resolves [factory_method] to the
    function of the variant [v]. *)
Lemma some_operation_by_factory (v : variant) (depth : nat) (st : state)
    (l : loc) (o : object) (cls : pyclass) (f g : function) :
  module_available st ->
  heap st !! l = Some o ->
  o_dict o !! "some_operation" = None ->
  o_dict o !! "factory_method" = None ->
  classes st !! o_class o = Some cls ->
  class_getattr (classes st) (o_class o) "some_operation" = Some f ->
  f_code f = code_ShoesCreator_some_operation ->
  class_getattr (classes st) (o_class o) "factory_method" = Some g ->
  f_code g = factory_code v ->
  exists p,
    globals imported !! product_name v = Some p /\
    call_method (S (S depth)) (VObj l) "some_operation" st
    = (Val (VStr (creator_text v)), allocated p st).
Proof.
  intros Hst Hl Hso Hfm Hc Hf Hfc Hg Hgc.
  destruct (product_class v) as (p & pcls & Hp & Hpc & _ & Ha & Hn & Hi & _).
  exists p. split; [exact Hp|].
  rewrite (call_method_resolved (S depth) st l o cls _ f Hl Hso Hc Hf), Hfc.
  cbn [run_code]. unfold ShoesCreator.some_operation.
  assert (Hcall : call_method (S depth) (VObj l) "factory_method" st
                  = (Val (VObj (fresh (dom (heap st)))), allocated p st)).
  { rewrite (call_method_resolved depth st l o cls _ g Hl Hfm Hc Hg), Hgc.
    pose proof (available_construct st Hst _ p pcls Hp Hpc Ha Hn Hi) as E.
    destruct v; exact E. }
  rewrite (bind_val _ _ _ _ _ Hcall).
  rewrite (bind_val _ _ _ _ _
             (available_operation (allocated p st)
                (available_allocated st Hst p) v depth _ _
                (allocated_lookup p st) Hp (lookup_empty _))).
  reflexivity.
Qed.

Lemma creator_class_code (v : variant) :
  exists c cls,
    globals imported !! creator_name v = Some c /\
    classes imported !! c = Some cls /\
    c_abc cls = true /\
    c_abstractmethods cls = ∅ /\
    class_getattr (classes imported) c "__new__" = None /\
    class_getattr (classes imported) c "__init__" = None /\
    class_getattr (classes imported) c "some_operation"
    = Some (def code_ShoesCreator_some_operation) /\
    class_getattr (classes imported) c "factory_method"
    = Some (def (factory_code v)).
Proof.
  destruct v.
  - exists 3, (default class_object (classes imported !! 3)).
    split_and!; table.
  - exists 4, (default class_object (classes imported !! 4)).
    split_and!; table.
Qed.

(** [C().some_operation()] for a concrete creator of the module, among
    further classes. *)
Lemma available_some_operation_on_new (v : variant) (depth : nat)
    (st : state) :
  module_available st ->
  exists st',
    call_on_new (S (S depth)) (creator_name v) "some_operation" st
    = (Val (VStr (creator_text v)), st').
Proof.
  intros Hst.
  destruct (creator_class_code v)
    as (c & cls & Hg & Hc & _ & Ha & Hn & Hi & Hso & Hfm).
  pose proof (available_allocated st Hst c) as Hst1.
  destruct (some_operation_by_factory v depth (allocated c st)
              (fresh (dom (heap st))) {| o_class := c; o_dict := ∅ |}
              cls _ _ Hst1 (allocated_lookup c st)
              (lookup_empty _) (lookup_empty _)
              (available_class _ Hst1 c cls Hc)
              ltac:(rewrite (available_getattr _ Hst1 c cls _ Hc); exact Hso)
              eq_refl
              ltac:(rewrite (available_getattr _ Hst1 c cls _ Hc); exact Hfm)
              eq_refl) as (p & _ & Hcall).
  exists (allocated p (allocated c st)). unfold call_on_new.
  rewrite (bind_val _ _ _ _ _
             (available_construct st Hst _ c cls Hg Hc Ha Hn Hi)).
  exact Hcall.
Qed.

(** A [class] statement that ends normally has added one class at the end
    of the table and bound its name. *)
Lemma class_stmt_val_inv (name bname : string) (ns : gmap string function)
    (st st1 : state) :
  class_stmt name bname ns st = (Val tt, st1) ->
  exists b base, st1 = subclassed name b base ns st.
Proof.
  unfold class_stmt, bind at 1, lookup_global, bind at 1, get_state at 1.
  destruct (globals st !! bname) as [b|];
    [|destruct (builtins bname) as [b|]; [|discriminate]].
  - unfold ret at 1, bind at 1, get_class, bind at 1, get_state at 1.
    destruct (classes st !! b) as [base|]; [|discriminate].
    unfold ret at 1.
    destruct (decide (map_Forall (fun k _ => plain_name k) ns));
      [|discriminate].
    intros E. exists b, base. injection E as <-. reflexivity.
  - unfold ret at 1, bind at 1, get_class, bind at 1, get_state at 1.
    destruct (classes st !! b) as [base|]; [|discriminate].
    unfold ret at 1.
    destruct (decide (map_Forall (fun k _ => plain_name k) ns));
      [|discriminate].
    intros E. exists b, base. injection E as <-. reflexivity.
Qed.

Lemma subclassed_available (name : string) (b : class_id) (base : pyclass)
    (ns : gmap string function) (st : state) :
  module_available st ->
  globals imported !! name = None ->
  module_available (subclassed name b base ns st).
Proof.
  intros [[extra Hc] Hg] Hname. split.
  - exists (app extra [new_class name b base ns (classes st)]).
    cbn [classes subclassed]. rewrite Hc at 1.
    symmetry. apply (assoc_L app).
  - cbn [globals subclassed]. apply insert_subseteq_r; assumption.
Qed.

Lemma loaded_available (st : state) :
  module_loaded st -> module_available st.
Proof.
  intros [Hc Hg]. split.
  - exists []. rewrite Hc. symmetry. apply app_nil_r.
  - rewrite Hg. reflexivity.
Qed.

(** Defining a further class does not disturb the module.  Take a
    [class] statement with one base, under a name that the module does
    not use, whose body only binds names without a leading underscore to
    functions of the module (the bodies that [class_stmt] covers; an
    empty body is one).  If it ends normally, the module's classes are
    still at the front of the class table, its names are still bound to
    them, and [C().some_operation()] still returns the text of the
    variant for each concrete creator [C].  The condition on the state is
    the one assumed, so this holds after any number of such
    statements. *)
Theorem new_classes_do_not_disturb (name bname : string)
    (ns : gmap string function) (st st1 : state) :
  module_available st ->
  globals imported !! name = None ->
  class_stmt name bname ns st = (Val tt, st1) ->
  module_available st1 /\
  forall v depth,
  exists st2,
    call_on_new (S (S depth)) (creator_name v) "some_operation" st1
    = (Val (VStr (creator_text v)), st2).
Proof.
  intros Hst Hname Hstmt.
  destruct (class_stmt_val_inv name bname ns st st1 Hstmt)
    as (b & base & ->).
  pose proof (subclassed_available name b base ns st Hst Hname) as Hst1.
  split; [exact Hst1|].
  intros v depth.
  exact (available_some_operation_on_new v depth _ Hst1).
Qed.

Lemma new_classes_do_not_disturb_witness :
  module_available imported /\
  globals imported !! "BarefootCreator" = None /\
  class_stmt "BarefootCreator" "ShoesCreator" ∅ imported
  = (Val tt, subclassed "BarefootCreator" 2
               (default class_object (classes imported !! 2)) ∅ imported) /\
  forall v depth,
  exists st2,
    call_on_new (S (S depth)) (creator_name v) "some_operation"
      (subclassed "BarefootCreator" 2
         (default class_object (classes imported !! 2)) ∅ imported)
    = (Val (VStr (creator_text v)), st2).
Proof.
  assert (Ha : module_available imported)
    by exact (loaded_available imported imported_loaded).
  assert (Hn : globals imported !! "BarefootCreator" = None)
    by (vm_compute; reflexivity).
  assert (Hs : class_stmt "BarefootCreator" "ShoesCreator" ∅ imported
               = (Val tt, subclassed "BarefootCreator" 2
                            (default class_object (classes imported !! 2))
                            ∅ imported))
    by (vm_compute; reflexivity).
  split_and!; [exact Ha | exact Hn | exact Hs |].
  exact (proj2 (new_classes_do_not_disturb "BarefootCreator"
                  "ShoesCreator" ∅ imported _ Ha Hn Hs)).
Defined.

Lemma plain_names_lookup (ns : gmap string function) (k : string) :
  map_Forall (fun k _ => plain_name k) ns ->
  String.prefix "_" k = true ->
  ns !! k = None.
Proof.
  intros Hns Hk. destruct (ns !! k) as [f|] eqn:E; [|reflexivity].
  pose proof (Hns _ _ E) as Hp. unfold plain_name in Hp. congruence.
Qed.

(** A body without abstract functions, on a base without abstract names,
    leaves no abstract name. *)
Lemma no_abstract_names (ns : gmap string function) (cs : list pyclass)
    (base : pyclass) :
  (forall k f, ns !! k = Some f -> f_isabstract f = false) ->
  c_abstractmethods base = ∅ ->
  compute_abstractmethods ns cs base = ∅.
Proof.
  intros Hns Hb. unfold compute_abstractmethods.
  apply elem_of_equiv_empty_L. intros x Hx.
  apply elem_of_union in Hx as [Hx|Hx].
  - apply elem_of_dom in Hx as [f Hf].
    apply map_lookup_filter_Some in Hf as [Hf Ha]. cbn in Ha.
    rewrite (Hns x f Hf) in Ha. discriminate Ha.
  - apply elem_of_filter in Hx as [_ Hx]. rewrite Hb in Hx.
    exact (not_elem_of_empty x Hx).
Qed.

(** On the class that a [class] statement has just added, a name that its
    body does not define resolves as on its base. *)
Lemma subclassed_getattr (name : string) (b : class_id) (base : pyclass)
    (ns : gmap string function) (st : state) (attr : string) :
  module_available st ->
  classes imported !! b = Some base ->
  ns !! attr = None ->
  class_getattr (classes (subclassed name b base ns st))
    (length (classes st)) attr
  = class_getattr (classes imported) b attr.
Proof.
  intros Hst Hb Hattr.
  assert (Hcls : classes (subclassed name b base ns st)
                   !! length (classes st)
                 = Some (new_class name b base ns (classes st))).
  { cbn [classes subclassed]. apply list_lookup_middle. reflexivity. }
  unfold class_getattr at 1. rewrite Hcls.
  cbn [c_mro new_class mro_lookup]. rewrite Hcls.
  cbn [c_dict new_class]. rewrite Hattr.
  destruct Hst as [[extra Hc] _]. cbn [classes subclassed].
  rewrite Hc, <- (assoc_L app).
  rewrite (mro_lookup_app _ _ _ _ (imported_mro_in_range b base Hb)).
  unfold class_getattr. rewrite Hb. reflexivity.
Qed.

(** ... and a name that its body defines resolves to the body's
    function. *)
Lemma subclassed_getattr_own (name : string) (b : class_id)
    (base : pyclass) (ns : gmap string function) (st : state)
    (attr : string) (g : function) :
  ns !! attr = Some g ->
  class_getattr (classes (subclassed name b base ns st))
    (length (classes st)) attr
  = Some g.
Proof.
  intros Hattr.
  assert (Hcls : classes (subclassed name b base ns st)
                   !! length (classes st)
                 = Some (new_class name b base ns (classes st))).
  { cbn [classes subclassed]. apply list_lookup_middle. reflexivity. }
  unfold class_getattr at 1. rewrite Hcls.
  cbn [c_mro new_class mro_lookup]. rewrite Hcls.
  cbn [c_dict new_class]. rewrite Hattr. reflexivity.
Qed.

(** A body without abstract functions that defines [factory_method], on
    a base whose only abstract name can be [factory_method], leaves no
    abstract name. *)
Lemma factory_method_implemented (ns : gmap string function)
    (cs : list pyclass) (base : pyclass) (g : function) :
  (forall k f, ns !! k = Some f -> f_isabstract f = false) ->
  (forall x, x ∈ c_abstractmethods base -> x = "factory_method") ->
  ns !! "factory_method" = Some g ->
  compute_abstractmethods ns cs base = ∅.
Proof.
  intros Hns Hb Hg. unfold compute_abstractmethods.
  apply elem_of_equiv_empty_L. intros x Hx.
  apply elem_of_union in Hx as [Hx|Hx].
  - apply elem_of_dom in Hx as [f Hf].
    apply map_lookup_filter_Some in Hf as [Hf Ha]. cbn in Ha.
    rewrite (Hns x f Hf) in Ha. discriminate Ha.
  - apply elem_of_filter in Hx as [Ha Hx].
    rewrite (Hb x Hx) in Ha. unfold is_abstract_in in Ha.
    rewrite Hg, (Hns _ g Hg) in Ha. discriminate Ha.
Qed.

(** The class that [class name(bname): ...] adds, when it has no
    abstract name left, inherits [some_operation] and resolves
    [factory_method] to the function of the variant [w]: it can be
    instantiated and [some_operation] returns the text of [w]. *)
Lemma creator_subclass_runs (w : variant) (depth : nat)
    (name bname : string) (b : class_id) (base : pyclass)
    (ns : gmap string function) (g : function) (st : state) :
  module_available st ->
  globals imported !! name = None ->
  globals imported !! bname = Some b ->
  classes imported !! b = Some base ->
  c_abc base = true ->
  class_getattr (classes imported) b "__new__" = None ->
  class_getattr (classes imported) b "__init__" = None ->
  class_getattr (classes imported) b "some_operation"
  = Some (def code_ShoesCreator_some_operation) ->
  map_Forall (fun k _ => plain_name k) ns ->
  compute_abstractmethods ns (classes st) base = ∅ ->
  ns !! "some_operation" = None ->
  class_getattr (classes (subclassed name b base ns st))
    (length (classes st)) "factory_method" = Some g ->
  f_code g = factory_code w ->
  exists st1 st2,
    class_stmt name bname ns st = (Val tt, st1) /\
    call_on_new (S (S depth)) name "some_operation" st1
    = (Val (VStr (creator_text w)), st2).
Proof.
  intros Hst Hname Hg Hb Habc Hn Hi Hbso Hplain Habs Hso Hfm Hcode.
  set (st1 := subclassed name b base ns st).
  set (n := length (classes st)).
  set (cls := new_class name b base ns (classes st)).
  assert (Hst1 : module_available st1)
    by exact (subclassed_available name b base ns st Hst Hname).
  assert (Hcls : classes st1 !! n = Some cls).
  { unfold st1, n. cbn [classes subclassed].
    apply list_lookup_middle. reflexivity. }
  assert (Hstmt : class_stmt name bname ns st = (Val tt, st1)).
  { unfold class_stmt.
    rewrite (bind_val _ _ _ _ _ (available_global st Hst _ _ Hg)).
    assert (Hgc : get_class b st = (Val base, st)).
    { unfold get_class, bind, get_state.
      rewrite (available_class st Hst b base Hb). reflexivity. }
    rewrite (bind_val _ _ _ _ _ Hgc).
    destruct (decide (map_Forall (fun k _ => plain_name k) ns))
      as [_|Hno]; [|contradiction].
    reflexivity. }
  assert (Hnew : construct name st1
                 = (Val (VObj (fresh (dom (heap st1)))), allocated n st1)).
  { unfold construct.
    assert (Hl : lookup_global name st1 = (Val n, st1)).
    { unfold lookup_global, bind, get_state, st1.
      cbn [globals subclassed]. rewrite lookup_insert_eq. reflexivity. }
    rewrite (bind_val _ _ _ _ _ Hl).
    apply (py_new_concrete n cls st1 Hcls).
    - unfold cls, new_class. cbn [c_abstractmethods]. rewrite Habc.
      exact Habs.
    - unfold st1, n.
      rewrite (subclassed_getattr name b base ns st _ Hst Hb
                 (plain_names_lookup ns "__new__" Hplain eq_refl)).
      exact Hn.
    - unfold st1, n.
      rewrite (subclassed_getattr name b base ns st _ Hst Hb
                 (plain_names_lookup ns "__init__" Hplain eq_refl)).
      exact Hi. }
  assert (Hcls2 : classes (allocated n st1) !! n = Some cls) by exact Hcls.
  destruct (some_operation_by_factory w depth (allocated n st1)
              (fresh (dom (heap st1))) {| o_class := n; o_dict := ∅ |}
              cls (def code_ShoesCreator_some_operation) g
              (available_allocated st1 Hst1 n) (allocated_lookup n st1)
              (lookup_empty _) (lookup_empty _) Hcls2
              ltac:(cbn [o_class classes allocated with_heap]; unfold st1, n;
                    rewrite (subclassed_getattr name b base ns st _
                               Hst Hb Hso); exact Hbso)
              eq_refl Hfm Hcode) as (p & _ & Hcall).
  exists st1, (allocated p (allocated n st1)).
  split; [exact Hstmt|]. unfold call_on_new.
  rewrite (bind_val _ _ _ _ _ Hnew). exact Hcall.
Qed.

(** A class whose only base is a concrete creator, defined under a name
    that the module does not use, whose body only binds names without a
    leading underscore to functions of the module, none of them abstract,
    and binds neither [factory_method] nor [some_operation] (an empty
    body is one), can be instantiated, and [some_operation] on its
    instances returns the text of the creator it extends. *)
Theorem subclass_of_concrete_creator (v : variant) (depth : nat)
    (name : string) (ns : gmap string function) (st : state) :
  module_available st ->
  globals imported !! name = None ->
  map_Forall (fun k _ => plain_name k) ns ->
  (forall k f, ns !! k = Some f -> f_isabstract f = false) ->
  ns !! "some_operation" = None ->
  ns !! "factory_method" = None ->
  exists st1 st2,
    class_stmt name (creator_name v) ns st = (Val tt, st1) /\
    call_on_new (S (S depth)) name "some_operation" st1
    = (Val (VStr (creator_text v)), st2).
Proof.
  intros Hst Hname Hplain Hconc Hso Hfm.
  destruct (creator_class_code v)
    as (b & base & Hg & Hb & Habc & Ha & Hn & Hi & Hbso & Hbfm).
  apply (creator_subclass_runs v depth name (creator_name v) b base ns
           (def (factory_code v)) st Hst Hname Hg Hb Habc Hn Hi Hbso
           Hplain (no_abstract_names ns _ base Hconc Ha) Hso);
    [|reflexivity].
  rewrite (subclassed_getattr name b base ns st _ Hst Hb Hfm).
  exact Hbfm.
Qed.

Lemma subclass_of_concrete_creator_witness :
  exists st1 st2,
    class_stmt "HighTopsCreator" (creator_name sneakers) ∅ imported
    = (Val tt, st1) /\
    call_on_new 2 "HighTopsCreator" "some_operation" st1
    = (Val (VStr (creator_text sneakers)), st2).
Proof.
  apply (subclass_of_concrete_creator sneakers 0 "HighTopsCreator" ∅
           imported).
  - exact (loaded_available imported imported_loaded).
  - vm_compute; reflexivity.
  - apply map_Forall_empty.
  - intros k f Hk. rewrite lookup_empty in Hk. discriminate Hk.
  - apply lookup_empty.
  - apply lookup_empty.
Defined.

Lemma creator_base (bname : string) :
  bname = "ShoesCreator" \/ (exists v, bname = creator_name v) ->
  exists b base,
    globals imported !! bname = Some b /\
    classes imported !! b = Some base /\
    c_abc base = true /\
    class_getattr (classes imported) b "__new__" = None /\
    class_getattr (classes imported) b "__init__" = None /\
    class_getattr (classes imported) b "some_operation"
    = Some (def code_ShoesCreator_some_operation) /\
    (forall x, x ∈ c_abstractmethods base -> x = "factory_method").
Proof.
  intros [->|[[|] ->]].
  - exists 2, (default class_object (classes imported !! 2)).
    split_and!; try table.
    intros x Hx.
    assert (E : c_abstractmethods
                  (default class_object (classes imported !! 2))
                = {["factory_method"]}) by table.
    rewrite E in Hx. apply elem_of_singleton in Hx. exact Hx.
  - exists 3, (default class_object (classes imported !! 3)).
    split_and!; try table.
    intros x Hx.
    assert (E : c_abstractmethods
                  (default class_object (classes imported !! 3)) = ∅)
      by table.
    rewrite E in Hx. destruct (not_elem_of_empty x Hx).
  - exists 4, (default class_object (classes imported !! 4)).
    split_and!; try table.
    intros x Hx.
    assert (E : c_abstractmethods
                  (default class_object (classes imported !! 4)) = ∅)
      by table.
    rewrite E in Hx. destruct (not_elem_of_empty x Hx).
Qed.

(** [some_operation] works with what the subclass's own
    [factory_method] creates.  A class whose only base is [ShoesCreator]
    or a concrete creator, defined under a name that the module does not
    use, whose body only binds names without a leading underscore to
    functions of the module, none of them abstract, binds
    [factory_method] to the function of the variant [w] and does not
    bind [some_operation], can be instantiated, and [some_operation] on
    its instances returns the text of [w], whatever its base would have
    created. *)
Theorem subclass_overriding_factory_method (w : variant) (depth : nat)
    (name bname : string) (ns : gmap string function) (g : function)
    (st : state) :
  module_available st ->
  globals imported !! name = None ->
  bname = "ShoesCreator" \/ (exists v, bname = creator_name v) ->
  map_Forall (fun k _ => plain_name k) ns ->
  (forall k f, ns !! k = Some f -> f_isabstract f = false) ->
  ns !! "some_operation" = None ->
  ns !! "factory_method" = Some g ->
  f_code g = factory_code w ->
  exists st1 st2,
    class_stmt name bname ns st = (Val tt, st1) /\
    call_on_new (S (S depth)) name "some_operation" st1
    = (Val (VStr (creator_text w)), st2).
Proof.
  intros Hst Hname Hbase Hplain Hconc Hso Hfm Hcode.
  destruct (creator_base bname Hbase)
    as (b & base & Hg & Hb & Habc & Hn & Hi & Hbso & Hbabs).
  exact (creator_subclass_runs w depth name bname b base ns g st
           Hst Hname Hg Hb Habc Hn Hi Hbso Hplain
           (factory_method_implemented ns _ base g Hconc Hbabs Hfm) Hso
           (subclassed_getattr_own name b base ns st _ g Hfm) Hcode).
Qed.

Lemma subclass_overriding_factory_method_witness :
  exists st1 st2,
    class_stmt "ClogsCreator" "SneakersCreator"
      {[ "factory_method" := def code_CrocksCreator_factory_method ]}
      imported
    = (Val tt, st1) /\
    call_on_new 2 "ClogsCreator" "some_operation" st1
    = (Val (VStr (creator_text crocks)), st2).
Proof.
  apply (subclass_overriding_factory_method crocks 0 "ClogsCreator"
           "SneakersCreator"
           {[ "factory_method" := def code_CrocksCreator_factory_method ]}
           (def code_CrocksCreator_factory_method) imported).
  - exact (loaded_available imported imported_loaded).
  - vm_compute; reflexivity.
  - right. exists sneakers. reflexivity.
  - apply map_Forall_singleton. reflexivity.
  - intros k f Hk. apply lookup_singleton_Some in Hk as [_ <-].
    reflexivity.
  - vm_compute; reflexivity.
  - vm_compute; reflexivity.
  - reflexivity.
Defined.
